(** * Recommendation engine of the Debezium Oracle diagnostic tool

    Shallow embedding of [computeRecommendations] (src/report.ts) and of the
    data it reads, followed by the properties of the specification that
    concern it.

    Modelling conventions.
    - A JavaScript [number] is a rational ([Q]).  The statistics are Oracle
      NUMBERs read by [getMetricStats], absent ones default to 0, so no NaN
      or infinity enters the engine.  The two products that scale a measured
      value (lines 240 and 263) are rounded to the nearest double, as the
      language rounds them ([Double.mul]); comparisons, maxima and ceilings
      are exact in the language, and the remaining quotients and sums are
      taken exact as well.  Equality of numbers is [Qeq] ([==]).
    - A static fact is read by [getStatic], which yields [null] when the row
      is absent: the [any[]] fields are therefore optional lists of rows, the
      rows being typed as setup.ts writes them, and the [any] field is an
      arbitrary JSON value.
    - A property access on [null] raises a TypeError: the engine runs in the
      [completion] monad.
    - Number formatting ([toFixed], interpolation in a template literal) is a
      built-in of the language, kept behind the [NumberFormat] interface. *)

From Stdlib Require Import ZArith QArith Qround Qminmax Qabs Qpower.
From Stdlib Require Import String Ascii List Bool Lia Lqa DecimalString.
Import ListNotations.

Open Scope string_scope.
Open Scope Q_scope.

(** ** Numbers *)

Definition number : Type := Q.

(** [x < y] and [x > y] on numbers, as booleans. *)
Definition ltb (x y : number) : bool :=
  match x ?= y with Lt => true | _ => false end.

Definition gtb (x y : number) : bool := ltb y x.

(** [x <= y]. *)
Definition leb (x y : number) : bool := Qle_bool x y.

(** [x === y] on numbers. *)
Definition strictEq (x y : number) : bool := Qeq_bool x y.

(** [x || y] on numbers: [y] when [x] is falsy, that is zero. *)
Definition orElse (x y : number) : number :=
  if Qeq_bool x 0 then y else x.

Module Math.

(** [Math.ceil]. *)
Definition ceil (x : number) : number := inject_Z (Qceiling x).

(** [Math.round]: the nearest integer, a tie going up. *)
Definition round (x : number) : number := inject_Z (Qfloor (x + (1 # 2))).

(** [Math.max] of two arguments. *)
Definition max (x y : number) : number := Qmax x y.

(** [Math.max] of three arguments. *)
Definition max3 (x y z : number) : number := Qmax (Qmax x y) z.

End Math.

(** *** Doubles

    The language computes a product in double precision: its value is the
    double nearest to the exact product (IEEE 754 binary64, a tie going to
    the even significand).  A double is a rational with a significand of 53
    bits.  The range of the exponent is not modelled: like NaN and the
    infinities, magnitudes beyond 1.8e308 or below 2.2e-308 stay outside. *)

Module Double.

(** [floor (log2 x)] for a positive [x]. *)
Definition exponent (x : Q) : Z :=
  let e := (Z.log2 (Qnum x) - Z.log2 (Z.pos (Qden x)))%Z in
  if Qle_bool (2 ^ e) x then e else (e - 1)%Z.

(** The integer nearest to [x], the even one of two. *)
Definition nearestEven (x : Q) : Z :=
  let n := Qfloor x in
  match Qcompare (x - inject_Z n) (1 # 2) with
  | Lt => n
  | Gt => (n + 1)%Z
  | Eq => if Z.even n then n else (n + 1)%Z
  end.

(** The spacing of the doubles from [2 ^ exponent x] on. *)
Definition ulp (x : Q) : Q := 2 ^ (exponent x - 52).

(** The double nearest to a positive [x]. *)
Definition roundPositive (x : Q) : Q :=
  inject_Z (nearestEven (x / ulp x)) * ulp x.

(** The double nearest to [x]. *)
Definition round (x : Q) : Q :=
  Qred match Qcompare x 0 with
       | Eq => 0
       | Gt => roundPositive x
       | Lt => - roundPositive (- x)
       end.

(** [x * y].  The operands of the language are doubles already: a number
    given as 2.53 stands for the double nearest to 2.53. *)
Definition mul (x y : number) : number := round (round x * round y).

End Double.

(** [1024 ** 3]. *)
Definition GiB : number := inject_Z (1024 ^ 3).

(** ** Strings *)

(** [s.startsWith(p)]. *)
Definition startsWith (p s : string) : bool := String.prefix p s.

(** [s.includes(sub)]. *)
Fixpoint includes (sub s : string) : bool :=
  String.prefix sub s ||
  match s with
  | EmptyString => false
  | String _ s' => includes sub s'
  end.

(** [parts.join(sep)]. *)
Fixpoint join (sep : string) (parts : list string) : string :=
  match parts with
  | [] => ""
  | [p] => p
  | p :: rest => p ++ sep ++ join sep rest
  end.

(** Formatting of numbers, as the language provides it. *)
Class NumberFormat : Type := {
  (** [x.toFixed(digits)] *)
  toFixed : number -> nat -> string;
  (** [`${x}`] *)
  numberToString : number -> string
}.

(** *** A decimal instance of the formatting

    The digits are those of the double that the number stands for. *)

Definition Z_toString (z : Z) : string :=
  NilZero.string_of_int (Z.to_int z).

(** [n] zeros. *)
Fixpoint zeros (n : nat) : string :=
  match n with
  | O => ""
  | S n' => String "0" (zeros n')
  end.

(** [digits] written with at least [width] digits, zeros in front. *)
Definition padZeros (width : nat) (digits : string) : string :=
  zeros (width - String.length digits) ++ digits.

(** The decimal exponent [n] of a positive [x]: [10^(n-1) <= x < 10^n]. *)
Definition decimalExponent (x : Q) : Z :=
  let size (z : Z) := Z.of_nat (String.length (Z_toString z)) in
  let d := (size (Qnum x) - size (Z.pos (Qden x)))%Z in
  if Qle_bool (10 ^ d) x then (d + 1)%Z else d.

(** The fewest digits that read back as the positive double [x]: the
    integer [s] of [k] digits with [s * 10^(n-k)] nearest to [x] among
    those that round to [x], searched from [k] digits on. *)
Fixpoint shortestDigits (fuel k : nat) (x : Q) (n : Z) : Z * nat * Z :=
  let scale := 10 ^ (n - Z.of_nat k) in
  let lo := Qfloor (x / scale) in
  match fuel with
  | O => (lo, k, n)
  | S fuel' =>
      let hi := (lo + 1)%Z in
      let reads (s : Z) := Qeq_bool (Double.round (inject_Z s * scale)) x in
      let upper := if (hi =? 10 ^ Z.of_nat k)%Z
                   then ((10 ^ (Z.of_nat k - 1))%Z, k, (n + 1)%Z)
                   else (hi, k, n) in
      match reads lo, reads hi with
      | true, true =>
          match Qcompare (x - inject_Z lo * scale) (inject_Z hi * scale - x) with
          | Lt => (lo, k, n)
          | Gt => upper
          | Eq => if Z.even lo then (lo, k, n) else upper
          end
      | true, false => (lo, k, n)
      | false, true => upper
      | false, false => shortestDigits fuel' (S k) x n
      end
  end.

(** The notation of Number::toString for the digits [s], [k] of them, and
    the exponent [n]. *)
Definition formatDigits (s : Z) (k : nat) (n : Z) : string :=
  let digits := Z_toString s in
  if ((Z.of_nat k <=? n) && (n <=? 21))%Z then
    digits ++ zeros (Z.to_nat n - k)
  else if ((0 <? n) && (n <=? 21))%Z then
    substring 0 (Z.to_nat n) digits ++ "." ++ substring (Z.to_nat n) k digits
  else if ((-6 <? n) && (n <=? 0))%Z then
    "0." ++ zeros (Z.to_nat (- n)) ++ digits
  else
    let e := (n - 1)%Z in
    (match k with
     | 1%nat => digits
     | _ => substring 0 1 digits ++ "." ++ substring 1 k digits
     end)
    ++ "e" ++ (if (e <? 0)%Z then "-" else "+") ++ Z_toString (Z.abs e).

(** Interpolation of a number, Number::toString: the fewest digits that
    read back as the double. *)
Definition decimal_toString (x : number) : string :=
  let d := Double.round x in
  let positive (d : Q) :=
    let '(s, k, n) := shortestDigits 17 1 d (decimalExponent d) in
    formatDigits s k n in
  match Qcompare d 0 with
  | Eq => "0"
  | Gt => positive d
  | Lt => "-" ++ positive (- d)
  end.

(** The ECMAScript algorithm of [Number.prototype.toFixed]: the sign, then
    the integer [n] nearest to [|x| * 10^f] (the larger one on a tie) written
    with a point before its last [f] digits; from 1e21 on, the notation of
    [decimal_toString]. *)
Definition decimal_toFixed (x : number) (f : nat) : string :=
  let sign := if ltb x 0 then "-" else "" in
  let ax := Qabs (Double.round x) in
  let n := Qfloor (ax * inject_Z (10 ^ Z.of_nat f) + (1 # 2)) in
  let digits := padZeros (S f) (Z_toString n) in
  let k := (String.length digits - f)%nat in
  if Qle_bool (inject_Z (10 ^ 21)) ax then decimal_toString x
  else
    sign ++
    match f with
    | O => digits
    | _ => substring 0 k digits ++ "." ++ substring k f digits
    end.

Definition decimalFormat : NumberFormat :=
  {| toFixed := decimal_toFixed; numberToString := decimal_toString |}.

(** ** Completions *)

Inductive exn : Type :=
| TypeError (message : string).

Inductive completion (A : Type) : Type :=
| Normal (value : A)
| Throw (e : exn).

Arguments Normal {A} value.
Arguments Throw {A} e.

Definition bind {A B : Type} (c : completion A) (k : A -> completion B)
  : completion B :=
  match c with
  | Normal a => k a
  | Throw e => Throw e
  end.

Notation "x <- c ;; k" := (bind c (fun x => k))
  (at level 61, c at next level, right associativity).

(** ** JSON values, as [JSON.parse] builds them

    The members of an object have distinct keys. *)

#[local] Set Warnings "-register-all".

Inductive Json : Type :=
| JNull
| JBool (b : bool)
| JNumber (n : number)
| JString (s : string)
| JArray (elems : list Json)
| JObject (members : list (string * Json)).

(** ToBoolean. *)
Definition truthy (v : Json) : bool :=
  match v with
  | JNull => false
  | JBool b => b
  | JNumber n => negb (Qeq_bool n 0)
  | JString s => negb (String.eqb s "")
  | JArray _ | JObject _ => true
  end.

(** [Array.isArray(v)], giving the elements. *)
Definition asArray (v : Json) : option (list Json) :=
  match v with
  | JArray elems => Some elems
  | _ => None
  end.

Definition isArray (v : Json) : bool :=
  match asArray v with Some _ => true | None => false end.

Fixpoint lookupMember (key : string) (members : list (string * Json))
  : option Json :=
  match members with
  | [] => None
  | (k, v) :: rest => if String.eqb k key then Some v else lookupMember key rest
  end.

(** [v?.key] for a key that no primitive and no array has: a member of an
    object, [undefined] ([None]) otherwise, also when [v] is [undefined] or
    [null]. *)
Definition optChain (v : option Json) (key : string) : option Json :=
  match v with
  | Some (JObject members) => lookupMember key members
  | _ => None
  end.

(** [v !== s] for a value or [undefined] and a string. *)
Definition strictNeqString (v : option Json) (s : string) : bool :=
  match v with
  | Some (JString t) => negb (String.eqb t s)
  | _ => true
  end.

(** A property read on a static fact: a TypeError when the fact is [null]. *)
Definition deref {A : Type} (fact : option A) (property : string)
  : completion A :=
  match fact with
  | Some a => Normal a
  | None =>
      Throw (TypeError
        ("Cannot read properties of null (reading '" ++ property ++ "')"))
  end.

(** ** The data model *)

Module MetricStats.

Record t : Type := mk {
  min : number;
  max : number;
  avg : number;
  p95 : number;
  samples : number
}.

End MetricStats.

(** A row of [v$log], as [collectStatic] stores it. *)
Record RedoLogRow : Type := {
  GROUP_NUM : number;
  BYTES : number;
  MEMBERS : number;
  STATUS : string
}.

(** A row of the LOB columns of the captured tables. *)
Record LobColumn : Type := {
  TABLE_NAME : string;
  COLUMN_NAME : string;
  DATA_TYPE : string
}.

(** [DiagReport], without its [recommendations] field, which the engine fills
    and never reads. *)
Record DiagReport : Type := {
  switchesPerHour : MetricStats.t;
  archiveGbPerHour : MetricStats.t;
  avgArchiveFileSizeGb : number;
  oldestTxnMinutes : MetricStats.t;
  activeTxnCount : MetricStats.t;
  archiveWindowHours : MetricStats.t;
  archiveDiskUsedGb : MetricStats.t;
  samplingDurationHours : number;

  redoLogConfig : option (list RedoLogRow);
  lobColumns : option (list LobColumn);
  capturedTableCount : number;
  schemaTableCount : number;
  supplementalLogging : Json;
  archiveLagTarget : number;
  maxStringSize : string;
  captureSchema : string;
  captureTablePattern : string
}.

Record Recommendations : Type := {
  redoLogSizeGb : number;
  redoLogGroups : number;
  archiveRetentionHours : number;
  archiveRetentionDiskGb : number;
  lobEnabled : bool;
  lobReason : string;
  transactionRetentionMs : number;
  heartbeatIntervalMs : number;
  batchSizeDefault : number;
  batchSizeMax : number;
  maxRetries : number;
  queryFilterMode : string;
  archiveLogOnlyMode : bool;
  warnings : list string
}.

(** [xs.push(x)], on a list that is threaded through. *)
Definition push {A : Type} (xs : list A) (x : A) : list A :=
  List.app xs [x].

(** [xs.length] as a number. *)
Definition lengthOf {A : Type} (xs : list A) : number :=
  inject_Z (Z.of_nat (List.length xs)).

(** ** The recommendation engine *)

Section Engine.

Context {fmt : NumberFormat}.

(** The rationale of the LOB recommendation when LOB columns are found. *)
Definition lobFoundReason (cols : list LobColumn) (archiveRetentionHours : number)
  : string :=
  numberToString (lengthOf cols) ++ " LOB column(s) found in captured tables. " ++
  "LOB capture disabled by default to prevent watermark pinning. " ++
  "Enable only if LOB data capture is required AND retention is >= " ++
  numberToString (archiveRetentionHours + 1) ++ "h.".

Definition lobWarning (cols : list LobColumn) (maxStringSize : string) : string :=
  "LOB columns detected: " ++
  join ", " (map (fun c => TABLE_NAME c ++ "." ++ COLUMN_NAME c) cols) ++ ". " ++
  "If LOB capture is needed, consider VARCHAR2(32767) conversion (max_string_size=" ++
  maxStringSize ++ ").".

Definition queryFilterWarning (captureRatio : number) : string :=
  "Captured tables are " ++ toFixed (captureRatio * 100) 0 ++ "% of schema. " ++
  "query.filter.mode=regex recommended to reduce LogMiner overhead. " ++
  "Monitor that messages still arrive after enabling.".

Definition archiveLagWarning (minSwitches : number) : string :=
  "archive_lag_target is 0 and minimum switch rate is " ++
  numberToString minSwitches ++ "/hour. " ++
  "During quiet periods, long gaps without switches can stale the offset. " ++
  "Set archive_lag_target=1800 as a safety net.".

Definition supplementalLoggingWarning : string :=
  "Minimum supplemental logging is NOT enabled. Debezium requires at least minimal supplemental logging.".

Definition retentionRiskWarning (minWindow archiveRetentionHours : number) : string :=
  "ORA-00308 RISK: observed minimum archive window is " ++
  toFixed minWindow 1 ++ "h " ++
  "but recommended retention is " ++ numberToString archiveRetentionHours ++ "h. " ++
  "The current cleanup policy is deleting archives too soon — LogMiner will lose files " ++
  "it still needs. Raise RMAN retention or reduce archive generation before enabling Debezium.".

Definition noLobReason : string := "No LOB columns in captured tables.".

Definition computeRecommendations (r : DiagReport) : completion Recommendations :=
  let warnings : list string := [] in
  let hasLobs :=
    match lobColumns r with
    | Some cols => gtb (lengthOf cols) 0
    | None => false
    end in

  (* Redo log sizing *)
  redoRows <- deref (redoLogConfig r) "length" ;;
  let currentRedoSizeGb :=
    match redoRows with
    | row :: _ => BYTES row / GiB
    | [] => 4
    end in
  let currentGroups := lengthOf redoRows in
  let redoLogSizeGb :=
    if gtb (MetricStats.p95 (switchesPerHour r)) 6 then
      let targetSwitches := 4 in
      let peakGbPerHour :=
        orElse (MetricStats.p95 (archiveGbPerHour r))
               (MetricStats.max (archiveGbPerHour r)) in
      Math.max (Math.ceil (peakGbPerHour / targetSwitches)) 2
    else currentRedoSizeGb in
  let redoLogGroups := Math.max currentGroups 4 in

  (* Archive retention *)
  let archiveWriteTimeMin := (avgArchiveFileSizeGb r / (1 # 2)) * 1 in
  let logMinerSessionOverheadMin := 15 in
  let safetyBufferMin := 60 in
  let switchIntervalMinP95 :=
    if gtb (MetricStats.p95 (switchesPerHour r)) 0
    then 60 / MetricStats.p95 (switchesPerHour r)
    else 30 in
  let minRetentionMin :=
    Math.max3
      (MetricStats.p95 (oldestTxnMinutes r) + safetyBufferMin)
      (switchIntervalMinP95 * 3 + archiveWriteTimeMin
         + logMinerSessionOverheadMin + safetyBufferMin)
      120 in
  let archiveRetentionHours := Math.ceil (minRetentionMin / 60) in
  let retentionDiskGb :=
    Double.mul (MetricStats.p95 (archiveGbPerHour r)) archiveRetentionHours in

  (* LOB *)
  lob <- (if hasLobs then
            cols <- deref (lobColumns r) "length" ;;
            Normal (false,
                    lobFoundReason cols archiveRetentionHours,
                    push warnings (lobWarning cols (maxStringSize r)))
          else Normal (false, noLobReason, warnings)) ;;
  let '(lobEnabled, lobReason, warnings) := lob in

  (* Transaction retention *)
  let txnRetentionMs :=
    Math.max
      (Double.mul
         (Double.mul (Double.mul (MetricStats.p95 (oldestTxnMinutes r)) 2) 60)
         1000)
      300000 in

  (* Heartbeat *)
  let heartbeatIntervalMs :=
    if leb archiveRetentionHours 2 then 10000 else 30000 in

  (* Batch sizing *)
  let captureRatio :=
    if gtb (schemaTableCount r) 0
    then capturedTableCount r / schemaTableCount r
    else 1 in
  let batchSizeDefault := if ltb captureRatio (3 # 10) then 5000 else 10000 in
  let batchSizeMax := if ltb captureRatio (3 # 10) then 10000 else 50000 in

  (* Query filter mode *)
  let queryFilterMode := if ltb captureRatio (1 # 2) then "regex" else "none" in
  let warnings :=
    if String.eqb queryFilterMode "regex"
    then push warnings (queryFilterWarning captureRatio)
    else warnings in

  (* Max retries *)
  let maxRetries := if gtb (avgArchiveFileSizeGb r) 5 then 30 else 10 in

  (* Archive lag target check *)
  let warnings :=
    if strictEq (archiveLagTarget r) 0
       && ltb (MetricStats.min (switchesPerHour r)) 2
    then push warnings (archiveLagWarning (MetricStats.min (switchesPerHour r)))
    else warnings in

  (* Supplemental logging check *)
  let suppLog := supplementalLogging r in
  let warnings :=
    match (if truthy suppLog then asArray suppLog else None) with
    | Some elems =>
        if gtb (lengthOf elems) 0 then
          let min := optChain (List.head elems) "SUPPLEMENTAL_LOG_DATA_MIN" in
          if strictNeqString min "YES"
          then push warnings supplementalLoggingWarning
          else warnings
        else warnings
    | None => warnings
    end in

  (* Archive window sanity check *)
  let warnings :=
    if gtb (MetricStats.samples (archiveWindowHours r)) 0
       && ltb (MetricStats.min (archiveWindowHours r)) archiveRetentionHours
    then push warnings
           (retentionRiskWarning (MetricStats.min (archiveWindowHours r))
                                 archiveRetentionHours)
    else warnings in

  Normal {|
    redoLogSizeGb := Math.round (redoLogSizeGb * 10) / 10;
    redoLogGroups := redoLogGroups;
    archiveRetentionHours := archiveRetentionHours;
    archiveRetentionDiskGb := Math.round retentionDiskGb;
    lobEnabled := lobEnabled;
    lobReason := lobReason;
    transactionRetentionMs := txnRetentionMs;
    heartbeatIntervalMs := heartbeatIntervalMs;
    batchSizeDefault := batchSizeDefault;
    batchSizeMax := batchSizeMax;
    maxRetries := maxRetries;
    queryFilterMode := queryFilterMode;
    archiveLogOnlyMode := false;
    warnings := warnings
  |}.

End Engine.

(** ** Vocabulary of the specification *)



(** The capture ratio as the specification words it: 1 when the schema
    table count is zero, the quotient otherwise. *)
Definition statedCaptureRatio (r : DiagReport) : number :=
  if Qeq_bool (schemaTableCount r) 0 then 1
  else capturedTableCount r / schemaTableCount r.

(** The per-group size of the redo logs as configured, 4 GB without rows
    (spec 4.1). *)
Definition configuredRedoSizeGb (rows : list RedoLogRow) : number :=
  match rows with
  | [] => 4
  | row :: _ => BYTES row / GiB
  end.

(** The p95 of the archive generation rate, its maximum when the p95 is
    zero (spec 4.1). *)
Definition peakArchiveGbPerHour (r : DiagReport) : number :=
  if Qeq_bool (MetricStats.p95 (archiveGbPerHour r)) 0
  then MetricStats.max (archiveGbPerHour r)
  else MetricStats.p95 (archiveGbPerHour r).

(** A number rounded to one decimal place, a tie going up. *)
Definition roundedToOneDecimal (x : number) : number :=
  inject_Z (Qfloor (x * 10 + (1 # 2))) / 10.

(** The member [key] of [v] is the string [expected]. *)
Definition memberIsString (v : Json) (key expected : string) : bool :=
  match v with
  | JObject members =>
      match lookupMember key members with
      | Some (JString s) => String.eqb s expected
      | _ => false
      end
  | _ => false
  end.

(** The supplemental-logging fact is a non-empty array whose first element
    has a SUPPLEMENTAL_LOG_DATA_MIN other than the string YES. *)
Definition minimalLoggingNotEnabled (fact : Json) : bool :=
  match fact with
  | JArray (first :: _) =>
      negb (memberIsString first "SUPPLEMENTAL_LOG_DATA_MIN" "YES")
  | _ => false
  end.

(** At least one LOB column was found among the captured tables. *)
Definition lobColumnFound (r : DiagReport) : bool :=
  match lobColumns r with
  | Some (_ :: _) => true
  | _ => false
  end.

(** Which warning a string of the list is, by the words it opens with. *)
Definition isLobWarning (w : string) : bool :=
  startsWith "LOB columns detected: " w.

Definition isQueryFilterWarning (w : string) : bool :=
  startsWith "Captured tables are " w.

Definition isArchiveLagWarning (w : string) : bool :=
  startsWith "archive_lag_target is 0" w.

Definition isSupplementalLoggingWarning (w : string) : bool :=
  startsWith "Minimum supplemental logging is NOT enabled." w.

Definition isRetentionRiskWarning (w : string) : bool :=
  startsWith "ORA-00308 RISK: " w.

(** ** Snapshots used as examples *)

Definition noSamples : MetricStats.t := MetricStats.mk 0 0 0 0 0.

(** A snapshot with no sample and every list empty. *)
Definition emptySnapshot : DiagReport := {|
  switchesPerHour := noSamples;
  archiveGbPerHour := noSamples;
  avgArchiveFileSizeGb := 0;
  oldestTxnMinutes := noSamples;
  activeTxnCount := noSamples;
  archiveWindowHours := noSamples;
  archiveDiskUsedGb := noSamples;
  samplingDurationHours := 24;
  redoLogConfig := Some [];
  lobColumns := Some [];
  capturedTableCount := 0;
  schemaTableCount := 0;
  supplementalLogging := JNull;
  archiveLagTarget := 0;
  maxStringSize := "STANDARD";
  captureSchema := "APP";
  captureTablePattern := ".*"
|}.

(** The same snapshot when the [redo_log_config] fact is absent from the
    static table: [getStatic] returns [null]. *)
Definition snapshotWithoutRedoLogConfig : DiagReport := {|
  switchesPerHour := noSamples;
  archiveGbPerHour := noSamples;
  avgArchiveFileSizeGb := 0;
  oldestTxnMinutes := noSamples;
  activeTxnCount := noSamples;
  archiveWindowHours := noSamples;
  archiveDiskUsedGb := noSamples;
  samplingDurationHours := 24;
  redoLogConfig := None;
  lobColumns := Some [];
  capturedTableCount := 0;
  schemaTableCount := 0;
  supplementalLogging := JNull;
  archiveLagTarget := 0;
  maxStringSize := "STANDARD";
  captureSchema := "APP";
  captureTablePattern := ".*"
|}.

(** A redo log group of 200 MB. *)
Definition redoGroup200MB (group : number) : RedoLogRow :=
  {| GROUP_NUM := group; BYTES := 209715200; MEMBERS := 1; STATUS := "INACTIVE" |}.

(** A day of samples on a database with three redo groups of 200 MB, two
    LOB columns, a quarter of the schema captured, minimal supplemental
    logging off, an oldest-transaction p95 of 45 minutes and archives kept
    for three hours at worst.  The retention comes out at five hours. *)
Definition busySnapshot : DiagReport := {|
  switchesPerHour := MetricStats.mk 0 4 1 1 96;
  archiveGbPerHour := MetricStats.mk 0 20 5 (3 # 10) 96;
  avgArchiveFileSizeGb := 3 # 2;
  oldestTxnMinutes := MetricStats.mk 0 300 10 45 96;
  activeTxnCount := MetricStats.mk 0 12 3 9 96;
  archiveWindowHours := MetricStats.mk 3 30 20 25 96;
  archiveDiskUsedGb := MetricStats.mk 10 80 40 70 96;
  samplingDurationHours := 24;
  redoLogConfig := Some [redoGroup200MB 1; redoGroup200MB 2; redoGroup200MB 3];
  lobColumns :=
    Some [ {| TABLE_NAME := "ORDERS"; COLUMN_NAME := "NOTE"; DATA_TYPE := "CLOB" |};
           {| TABLE_NAME := "DOCS"; COLUMN_NAME := "BODY"; DATA_TYPE := "BLOB" |} ];
  capturedTableCount := 25;
  schemaTableCount := 100;
  supplementalLogging :=
    JArray [ JObject [ ("SUPPLEMENTAL_LOG_DATA_MIN", JString "NO");
                       ("SUPPLEMENTAL_LOG_DATA_PK", JString "NO");
                       ("SUPPLEMENTAL_LOG_DATA_ALL", JString "NO") ] ];
  archiveLagTarget := 0;
  maxStringSize := "STANDARD";
  captureSchema := "APP";
  captureTablePattern := ".*"
|}.

(** The empty snapshot whose supplemental-logging fact is the bare text NO,
    which [JSON.parse] rejects and [getStatic] returns as it is. *)
Definition snapshotBareNo : DiagReport := {|
  switchesPerHour := noSamples;
  archiveGbPerHour := noSamples;
  avgArchiveFileSizeGb := 0;
  oldestTxnMinutes := noSamples;
  activeTxnCount := noSamples;
  archiveWindowHours := noSamples;
  archiveDiskUsedGb := noSamples;
  samplingDurationHours := 24;
  redoLogConfig := Some [];
  lobColumns := Some [];
  capturedTableCount := 0;
  schemaTableCount := 0;
  supplementalLogging := JString "NO";
  archiveLagTarget := 0;
  maxStringSize := "STANDARD";
  captureSchema := "APP";
  captureTablePattern := ".*"
|}.

(** What the engine returns on [busySnapshot]. *)
Definition busyRecommendations : Recommendations := {|
  redoLogSizeGb := 2 / 10;
  redoLogGroups := 4;
  archiveRetentionHours := 5;
  archiveRetentionDiskGb := 2;
  lobEnabled := false;
  lobReason :=
    "2 LOB column(s) found in captured tables. LOB capture disabled by default to prevent watermark pinning. Enable only if LOB data capture is required AND retention is >= 6h.";
  transactionRetentionMs := 5400000;
  heartbeatIntervalMs := 30000;
  batchSizeDefault := 5000;
  batchSizeMax := 10000;
  maxRetries := 10;
  queryFilterMode := "regex";
  archiveLogOnlyMode := false;
  warnings :=
    ["LOB columns detected: ORDERS.NOTE, DOCS.BODY. If LOB capture is needed, consider VARCHAR2(32767) conversion (max_string_size=STANDARD).";
     "Captured tables are 25% of schema. query.filter.mode=regex recommended to reduce LogMiner overhead. Monitor that messages still arrive after enabling.";
     "archive_lag_target is 0 and minimum switch rate is 0/hour. During quiet periods, long gaps without switches can stale the offset. Set archive_lag_target=1800 as a safety net.";
     "Minimum supplemental logging is NOT enabled. Debezium requires at least minimal supplemental logging.";
     "ORA-00308 RISK: observed minimum archive window is 3.0h but recommended retention is 5h. The current cleanup policy is deleting archives too soon — LogMiner will lose files it still needs. Raise RMAN retention or reduce archive generation before enabling Debezium."]
|}.

From Stdlib Require Import Sorted.

(** ** Vocabulary for the list of warnings *)

(** The place of a warning in the order of evaluation, 0 for a string that
    is none of the five warnings. *)
Definition warningRank (w : string) : nat :=
  if isLobWarning w then 1
  else if isQueryFilterWarning w then 2
  else if isArchiveLagWarning w then 3
  else if isSupplementalLoggingWarning w then 4
  else if isRetentionRiskWarning w then 5
  else 0.

(** The warnings of [ws] are of kinds 1 to [k - 1], in strictly increasing
    order of kind. *)
Definition orderedBelow (k : nat) (ws : list string) : Prop :=
  StronglySorted lt (map warningRank ws) /\
  Forall (fun w => (1 <= warningRank w < k)%nat) ws.
(** ** Reading a static fact *)

(** [getMaxStringSize]: the VALUE of the first row of the fact, STANDARD
    when it is [undefined] or [null] and when the fact is not an array with
    a row. *)
Definition getMaxStringSize (data : Json) : Json :=
  match asArray data with
  | Some elems =>
      if gtb (lengthOf elems) 0 then
        match optChain (List.head elems) "VALUE" with
        | None | Some JNull => JString "STANDARD"
        | Some value => value
        end
      else JString "STANDARD"
  | None => JString "STANDARD"
  end.
(** ** The renderers

    [generateMarkdown] and [generateEnvSnippet] push lines and join them
    with a newline.  The clock that stamps them is the parameter [now]; the
    recommendations, which the source reads in [r.recommendations], are the
    parameter [rec]. *)

(** A double quote and a newline. *)
Definition dquote : string := String "034"%char "".

Definition newline : string := String "010"%char "".

(** Interpolation of a boolean. *)
Definition booleanToString (b : bool) : string :=
  if b then "true" else "false".

Section Renderers.

Context {fmt : NumberFormat}.

#[local] Infix "+++" := (@List.app string) (at level 61, right associativity).

Definition fmtStats (s : MetricStats.t) : string :=
  "| Metric | Value |" ++ newline ++ "|--------|-------|" ++ newline ++
  "| Min | " ++ numberToString (MetricStats.min s) ++ " |" ++ newline ++
  "| Avg | " ++ numberToString (MetricStats.avg s) ++ " |" ++ newline ++
  "| P95 | " ++ numberToString (MetricStats.p95 s) ++ " |" ++ newline ++
  "| Max | " ++ numberToString (MetricStats.max s) ++ " |".

(** The lines of the report.  Reading [r.redoLogConfig.length] throws when
    the fact is [null]; nothing before it in the source throws or has an
    effect. *)
Definition markdownLines (now : string) (r : DiagReport) (rec : Recommendations)
  : completion (list string) :=
  redoRows <- deref (redoLogConfig r) "length" ;;
  let windowOk :=
    leb (archiveRetentionHours rec) (MetricStats.min (archiveWindowHours r)) in
  Normal (
    [ "# Debezium Oracle CDC — Diagnostic Report";
     "";
     "Generated: " ++ now;
     "Sampling duration: " ++ toFixed (samplingDurationHours r) 1 ++ " hours (" ++ numberToString (MetricStats.samples (switchesPerHour r)) ++ " samples)";
     "Schema: " ++ captureSchema r ++ ", Table pattern: `" ++ captureTablePattern r ++ "`";
     "";
     "## Observed Metrics";
     "";
     "### Log Switches (per hour)";
     fmtStats (switchesPerHour r);
     "";
     "### Archive Generation (GB/hour)";
     fmtStats (archiveGbPerHour r);
     "";
     "### Average Archive File Size: " ++ toFixed (avgArchiveFileSizeGb r) 2 ++ " GB";
     "";
     "### Longest Active Transaction (minutes)";
     fmtStats (oldestTxnMinutes r);
     "";
     "### Active Transaction Count";
     fmtStats (activeTxnCount r);
     "";
     "### Archive Window Available (hours)";
     fmtStats (archiveWindowHours r) ] +++
    [ "> Recommended retention: **" ++ numberToString (archiveRetentionHours rec) ++ "h** — current minimum window: **" ++ toFixed (MetricStats.min (archiveWindowHours r)) 1 ++ "h** — " ++ (if windowOk then "✓ OK" else "⚠ TOO SHORT (ORA-00308 risk)");
     "";
     "### Archive Disk Used (GB)";
     fmtStats (archiveDiskUsedGb r);
     "";
     "## Current Configuration";
     "";
     "| Setting | Value |";
     "|---------|-------|";
     "| Redo log groups | " ++ numberToString (lengthOf redoRows) ++ " |" ] +++
    match redoRows with
    | row :: _ =>
        [ "| Redo log size | " ++ toFixed (BYTES row / GiB) 1 ++ " GB |" ]
    | [] => []
    end +++
    [ "| Captured tables | " ++ numberToString (capturedTableCount r) ++ " of " ++ numberToString (schemaTableCount r) ++ " (" ++ (if gtb (schemaTableCount r) 0 then toFixed (capturedTableCount r / schemaTableCount r * 100) 0 else numberToString 0) ++ "%) |";
     "| LOB columns in captured tables | " ++ numberToString (match lobColumns r with Some cols => lengthOf cols | None => 0 end) ++ " |";
     "| archive_lag_target | " ++ numberToString (archiveLagTarget r) ++ " |";
     "| max_string_size | " ++ maxStringSize r ++ " |";
     "" ] +++
    match lobColumns r with
    | Some cols =>
        if gtb (lengthOf cols) 0 then
          [ "### LOB Columns in Captured Tables";
            "";
            "| Table | Column | Type |";
            "|-------|--------|------|" ] +++
          map (fun col => "| " ++ TABLE_NAME col ++ " | " ++ COLUMN_NAME col ++ " | " ++ DATA_TYPE col ++ " |") cols +++
          [ "" ]
        else []
    | None => []
    end +++
    [ "## Recommendations";
     "";
     "### Redo Logs";
     "- Size: **" ++ numberToString (redoLogSizeGb rec) ++ " GB** per group";
     "- Groups: **" ++ numberToString (redoLogGroups rec) ++ "**";
     "";
     "### Archive Retention";
     "- Retention: **" ++ numberToString (archiveRetentionHours rec) ++ " hours**";
     "- Estimated disk needed: **~" ++ numberToString (archiveRetentionDiskGb rec) ++ " GB**";
     "- RMAN delete clause: `delete noprompt archivelog all completed before 'SYSDATE-" ++ numberToString (archiveRetentionHours rec) ++ "/24';`";
     "";
     "### LOB Support";
     "- Enabled: **" ++ booleanToString (lobEnabled rec) ++ "**";
     "- Reason: " ++ lobReason rec;
     "";
     "### Debezium Tuning";
     "- transaction.retention.ms: **" ++ numberToString (transactionRetentionMs rec) ++ "** (" ++ numberToString (transactionRetentionMs rec / 60000) ++ " min)";
     "- heartbeat.interval.ms: **" ++ numberToString (heartbeatIntervalMs rec) ++ "**";
     "- batch.size.default: **" ++ numberToString (batchSizeDefault rec) ++ "**";
     "- batch.size.max: **" ++ numberToString (batchSizeMax rec) ++ "**";
     "- errors.max.retries: **" ++ numberToString (maxRetries rec) ++ "**";
     "- query.filter.mode: **" ++ queryFilterMode rec ++ "**";
     "- archive.log.only.mode: **" ++ booleanToString (archiveLogOnlyMode rec) ++ "**";
     "" ] +++
    (if gtb (lengthOf (warnings rec)) 0 then
       [ "## ⚠ Warnings";
         "" ] +++
       map (fun w => "- " ++ w) (warnings rec) +++
       [ "" ]
     else []) +++
    [ "## RMAN Script (recommended)";
     "";
     "```bash";
     "# Add disk safety check to archive cleanup script:";
     "USAGE=$(df --output=pcent /orafra | tail -1 | tr -dc '0-9')";
     "if [ " ++ dquote ++ "$USAGE" ++ dquote ++ " -gt 85 ]; then";
     "  # Emergency: shorter retention to protect database";
     "  delete noprompt archivelog all completed before 'SYSDATE-2/24';";
     "else";
     "  # Normal: recommended retention";
     "  delete noprompt archivelog all completed before 'SYSDATE-" ++ numberToString (archiveRetentionHours rec) ++ "/24';";
     "fi";
     "```";
     "" ] +++
    (if strictEq (archiveLagTarget r) 0
        && ltb (MetricStats.min (switchesPerHour r)) 2 then
       [ "## Oracle Parameter Change";
         "";
         "```sql";
         "ALTER SYSTEM SET ARCHIVE_LAG_TARGET = 1800 SCOPE=BOTH;";
         "```";
         "" ]
     else [])).

Definition generateMarkdown (now : string) (r : DiagReport) (rec : Recommendations)
  : completion string :=
  lines <- markdownLines now r rec ;;
  Normal (join newline lines).

(** The lines of the configuration snippet. *)
Definition envSnippetLines (now : string) (rec : Recommendations) (r : DiagReport)
  : list string :=
  ( [ "# ============================================================================";
     "# Debezium Oracle CDC — Recommended Configuration";
     "# Generated: " ++ now;
     "# Based on " ++ toFixed (samplingDurationHours r) 1 ++ " hours of diagnostic sampling";
     "# Schema: " ++ captureSchema r ++ ", Tables: " ++ captureTablePattern r;
     "# ============================================================================";
     "";
     "# --- Core ---";
     "DEBEZIUM_SOURCE_ORACLE_LOB_ENABLED=" ++ booleanToString (lobEnabled rec);
     "DEBEZIUM_SOURCE_LOG_MINING_ARCHIVE_LOG_ONLY_MODE=" ++ booleanToString (archiveLogOnlyMode rec);
     "DEBEZIUM_SOURCE_LOG_MINING_STRATEGY=online_catalog";
     "DEBEZIUM_SOURCE_LOG_MINING_BUFFER_TYPE=ehcache";
     "DEBEZIUM_SOURCE_SCHEMA_INCLUDE_LIST=" ++ captureSchema r;
     "DEBEZIUM_SOURCE_TABLE_INCLUDE_LIST=" ++ captureSchema r ++ "\\." ++ captureTablePattern r;
     "DEBEZIUM_SOURCE_SNAPSHOT_MODE=no_data";
     "DEBEZIUM_SOURCE_INCLUDE_SCHEMA_CHANGES=false";
     "";
     "# --- Transaction handling ---";
     "DEBEZIUM_SOURCE_LOG_MINING_TRANSACTION_RETENTION_MS=" ++ numberToString (transactionRetentionMs rec);
     "";
     "# --- Heartbeat ---";
     "DEBEZIUM_SOURCE_HEARTBEAT_INTERVAL_MS=" ++ numberToString (heartbeatIntervalMs rec);
     "DEBEZIUM_SOURCE_HEARTBEAT_ACTION_QUERY=" ++ dquote ++ "UPDATE " ++ captureSchema r ++ ".<TABLE> SET <col> = <col> WHERE ROWNUM = 1" ++ dquote;
     "";
     "# --- Performance ---";
     "DEBEZIUM_SOURCE_LOG_MINING_BATCH_SIZE_DEFAULT=" ++ numberToString (batchSizeDefault rec);
     "DEBEZIUM_SOURCE_LOG_MINING_BATCH_SIZE_MAX=" ++ numberToString (batchSizeMax rec) ] +++
    (if negb (String.eqb (queryFilterMode rec) "none") then
       [ "DEBEZIUM_SOURCE_LOG_MINING_QUERY_FILTER_MODE=" ++ queryFilterMode rec ]
     else []) +++
    [ "";
     "# --- Error handling ---";
     "DEBEZIUM_SOURCE_ERRORS_MAX_RETRIES=" ++ numberToString (maxRetries rec);
     "DEBEZIUM_SOURCE_ERRORS_RETRY_DELAY_INITIAL_MS=1000";
     "DEBEZIUM_SOURCE_ERRORS_RETRY_DELAY_MAX_MS=30000";
     "";
     "# --- Offset & flush ---";
     "DEBEZIUM_SOURCE_OFFSET_FLUSH_INTERVAL_MS=10000";
     "";
     "# ============================================================================";
     "# DBA actions required:";
     "# 1. Redo logs: " ++ numberToString (redoLogGroups rec) ++ " groups x " ++ numberToString (redoLogSizeGb rec) ++ "GB";
     "# 2. Archive retention: " ++ numberToString (archiveRetentionHours rec) ++ " hours (SYSDATE-" ++ numberToString (archiveRetentionHours rec) ++ "/24)";
     "#    Estimated disk needed: ~" ++ numberToString (archiveRetentionDiskGb rec) ++ "GB" ] +++
    (if strictEq (archiveLagTarget r) 0 then
       [ "# 3. Set ARCHIVE_LAG_TARGET=1800" ]
     else []) +++
    [ "# ============================================================================" ] ).

Definition generateEnvSnippet (now : string) (rec : Recommendations) (r : DiagReport)
  : string :=
  join newline (envSnippetLines now rec r).

End Renderers.
(** ** The connection settings (db.ts)

    [process.env] maps a name to a string or to [undefined]; [parseInt] is a
    built-in of the language, whose result is a number or NaN. *)

Section DbConfig.

Variable JsNumber : Type.

Variable parseInt10 : option string -> JsNumber.

Record DbConfig : Type := {
  host : option string;
  port : JsNumber;
  service : option string;
  user : option string;
  password : option string
}.

Definition required : list string :=
  ["ORACLE_HOST"; "ORACLE_PORT"; "ORACLE_SERVICE"; "ORACLE_USER"; "ORACLE_PASSWORD"].

(** [!value] for a string or [undefined]. *)
Definition isFalsy (value : option string) : bool :=
  match value with
  | None => true
  | Some s => String.eqb s ""
  end.

(** [getDbConfig]: the message of the Error that is thrown, or the
    settings. *)
Definition getDbConfig (env : string -> option string) : string + DbConfig :=
  match List.find (fun key => isFalsy (env key)) required with
  | Some key => inl ("Missing env var: " ++ key)
  | None =>
      inr {| host := env "ORACLE_HOST";
             port := parseInt10 (env "ORACLE_PORT");
             service := env "ORACLE_SERVICE";
             user := env "ORACLE_USER";
             password := env "ORACLE_PASSWORD" |}
  end.

End DbConfig.

Arguments host {JsNumber} _.
Arguments port {JsNumber} _.
Arguments service {JsNumber} _.
Arguments user {JsNumber} _.
Arguments password {JsNumber} _.
(** ** More snapshots used as examples *)

(** The moment that stamps the examples of the renderers. *)
Definition exampleNow : string := "2026-01-01T00:00:00.000Z".

(** The lines of the report of [busySnapshot]. *)
Definition busyReportLines : list string :=
  Eval vm_compute in
    match @markdownLines decimalFormat exampleNow busySnapshot busyRecommendations with
    | Normal lines => lines
    | Throw _ => []
    end.

(** [busySnapshot] with an oldest-transaction p95 of 300 minutes and archive
    files of 4 GB on average. *)
Definition longTransactionSnapshot : DiagReport := {|
  switchesPerHour := switchesPerHour busySnapshot;
  archiveGbPerHour := archiveGbPerHour busySnapshot;
  avgArchiveFileSizeGb := 4;
  oldestTxnMinutes := MetricStats.mk 0 400 60 300 96;
  activeTxnCount := activeTxnCount busySnapshot;
  archiveWindowHours := archiveWindowHours busySnapshot;
  archiveDiskUsedGb := archiveDiskUsedGb busySnapshot;
  samplingDurationHours := samplingDurationHours busySnapshot;
  redoLogConfig := redoLogConfig busySnapshot;
  lobColumns := lobColumns busySnapshot;
  capturedTableCount := capturedTableCount busySnapshot;
  schemaTableCount := schemaTableCount busySnapshot;
  supplementalLogging := supplementalLogging busySnapshot;
  archiveLagTarget := archiveLagTarget busySnapshot;
  maxStringSize := maxStringSize busySnapshot;
  captureSchema := captureSchema busySnapshot;
  captureTablePattern := captureTablePattern busySnapshot
|}.

(** A database that switches logs 8 times per hour at its peak, with an
    archive generation p95 of 16 GB per hour and two redo groups of 4 GB. *)
Definition switchingSnapshot : DiagReport := {|
  switchesPerHour := MetricStats.mk 2 9 5 8 96;
  archiveGbPerHour := MetricStats.mk 1 18 9 16 96;
  avgArchiveFileSizeGb := 2;
  oldestTxnMinutes := noSamples;
  activeTxnCount := noSamples;
  archiveWindowHours := noSamples;
  archiveDiskUsedGb := noSamples;
  samplingDurationHours := 24;
  redoLogConfig :=
    Some [ {| GROUP_NUM := 1; BYTES := 4294967296; MEMBERS := 1; STATUS := "CURRENT" |};
           {| GROUP_NUM := 2; BYTES := 4294967296; MEMBERS := 1; STATUS := "INACTIVE" |} ];
  lobColumns := Some [];
  capturedTableCount := 80;
  schemaTableCount := 100;
  supplementalLogging := JArray [ JObject [ ("SUPPLEMENTAL_LOG_DATA_MIN", JString "YES") ] ];
  archiveLagTarget := 1800;
  maxStringSize := "STANDARD";
  captureSchema := "APP";
  captureTablePattern := ".*"
|}.

(** What the engine returns on these two snapshots. *)
Definition longTransactionRecommendations : Recommendations :=
  Eval vm_compute in
    match @computeRecommendations decimalFormat longTransactionSnapshot with
    | Normal rec => rec
    | Throw _ => busyRecommendations
    end.

Definition switchingRecommendations : Recommendations :=
  Eval vm_compute in
    match @computeRecommendations decimalFormat switchingSnapshot with
    | Normal rec => rec
    | Throw _ => busyRecommendations
    end.

(** [busySnapshot] with an oldest-transaction p95 of 2.53 minutes. *)
Definition shortTransactionSnapshot : DiagReport := {|
  switchesPerHour := switchesPerHour busySnapshot;
  archiveGbPerHour := archiveGbPerHour busySnapshot;
  avgArchiveFileSizeGb := avgArchiveFileSizeGb busySnapshot;
  oldestTxnMinutes := MetricStats.mk 0 12 1 (253 # 100) 96;
  activeTxnCount := activeTxnCount busySnapshot;
  archiveWindowHours := archiveWindowHours busySnapshot;
  archiveDiskUsedGb := archiveDiskUsedGb busySnapshot;
  samplingDurationHours := samplingDurationHours busySnapshot;
  redoLogConfig := redoLogConfig busySnapshot;
  lobColumns := lobColumns busySnapshot;
  capturedTableCount := capturedTableCount busySnapshot;
  schemaTableCount := schemaTableCount busySnapshot;
  supplementalLogging := supplementalLogging busySnapshot;
  archiveLagTarget := archiveLagTarget busySnapshot;
  maxStringSize := maxStringSize busySnapshot;
  captureSchema := captureSchema busySnapshot;
  captureTablePattern := captureTablePattern busySnapshot
|}.

(** [busySnapshot] with an oldest-transaction p95 of 800 minutes, for a
    retention of 15 hours, and an archive generation p95 of 4.1 GB per
    hour. *)
Definition slowBatchSnapshot : DiagReport := {|
  switchesPerHour := switchesPerHour busySnapshot;
  archiveGbPerHour := MetricStats.mk 0 20 5 (41 # 10) 96;
  avgArchiveFileSizeGb := avgArchiveFileSizeGb busySnapshot;
  oldestTxnMinutes := MetricStats.mk 0 900 120 800 96;
  activeTxnCount := activeTxnCount busySnapshot;
  archiveWindowHours := archiveWindowHours busySnapshot;
  archiveDiskUsedGb := archiveDiskUsedGb busySnapshot;
  samplingDurationHours := samplingDurationHours busySnapshot;
  redoLogConfig := redoLogConfig busySnapshot;
  lobColumns := lobColumns busySnapshot;
  capturedTableCount := capturedTableCount busySnapshot;
  schemaTableCount := schemaTableCount busySnapshot;
  supplementalLogging := supplementalLogging busySnapshot;
  archiveLagTarget := archiveLagTarget busySnapshot;
  maxStringSize := maxStringSize busySnapshot;
  captureSchema := captureSchema busySnapshot;
  captureTablePattern := captureTablePattern busySnapshot
|}.

Definition shortTransactionRecommendations : Recommendations :=
  Eval vm_compute in
    match @computeRecommendations decimalFormat shortTransactionSnapshot with
    | Normal rec => rec
    | Throw _ => busyRecommendations
    end.

Definition slowBatchRecommendations : Recommendations :=
  Eval vm_compute in
    match @computeRecommendations decimalFormat slowBatchSnapshot with
    | Normal rec => rec
    | Throw _ => busyRecommendations
    end.

(** [emptySnapshot] with two redo groups of 50 MB. *)
Definition smallRedoSnapshot : DiagReport := {|
  switchesPerHour := noSamples;
  archiveGbPerHour := noSamples;
  avgArchiveFileSizeGb := 0;
  oldestTxnMinutes := noSamples;
  activeTxnCount := noSamples;
  archiveWindowHours := noSamples;
  archiveDiskUsedGb := noSamples;
  samplingDurationHours := 24;
  redoLogConfig :=
    Some [ {| GROUP_NUM := 1; BYTES := 52428800; MEMBERS := 1; STATUS := "CURRENT" |};
           {| GROUP_NUM := 2; BYTES := 52428800; MEMBERS := 1; STATUS := "INACTIVE" |} ];
  lobColumns := Some [];
  capturedTableCount := 0;
  schemaTableCount := 0;
  supplementalLogging := JNull;
  archiveLagTarget := 0;
  maxStringSize := "STANDARD";
  captureSchema := "APP";
  captureTablePattern := ".*"
|}.

Definition smallRedoRecommendations : Recommendations :=
  Eval vm_compute in
    match @computeRecommendations decimalFormat smallRedoSnapshot with
    | Normal rec => rec
    | Throw _ => busyRecommendations
    end.

(** What the engine returns on [emptySnapshot], and the lines of its
    report. *)
Definition emptyRecommendations : Recommendations :=
  Eval vm_compute in
    match @computeRecommendations decimalFormat emptySnapshot with
    | Normal rec => rec
    | Throw _ => busyRecommendations
    end.

Definition emptyReportLines : list string :=
  Eval vm_compute in
    match @markdownLines decimalFormat exampleNow emptySnapshot emptyRecommendations with
    | Normal lines => lines
    | Throw _ => []
    end.

(** * Properties *)

(** ** Numbers *)

Lemma ltb_true_iff (x y : number) : ltb x y = true <-> x < y.
Proof.
  unfold ltb. rewrite Qlt_alt. destruct (x ?= y); split; congruence.
Qed.

Lemma ltb_false_iff (x y : number) : ltb x y = false <-> y <= x.
Proof.
  pose proof (ltb_true_iff x y) as Hlt.
  destruct (ltb x y); split; intros H; try congruence.
  - exfalso. apply (Qle_not_lt y x); [assumption | now apply Hlt].
  - apply Qnot_lt_le. intros Hxy. apply Hlt in Hxy. discriminate.
Qed.

Lemma gtb_true_iff (x y : number) : gtb x y = true <-> y < x.
Proof. apply ltb_true_iff. Qed.

Lemma gtb_false_iff (x y : number) : gtb x y = false <-> x <= y.
Proof. apply ltb_false_iff. Qed.



Lemma max3_lower_bound (a b c : number) : c <= Math.max3 a b c.
Proof. unfold Math.max3. apply Q.le_max_r. Qed.

Lemma ceil_lower_bound (z : Z) (x : number) :
  inject_Z z <= x -> inject_Z z <= Math.ceil x.
Proof.
  intros H. unfold Math.ceil. rewrite <- Zle_Qle.
  rewrite <- (Qceiling_Z z). now apply Qceiling_resp_le.
Qed.

(** [Math.round] gives an integer within a half of its argument. *)
Lemma round_nearest (x : number) :
  x - (1 # 2) < Math.round x /\ Math.round x <= x + (1 # 2).
Proof.
  unfold Math.round.
  pose proof (Qfloor_le (x + (1 # 2))) as Hle.
  pose proof (Qlt_floor (x + (1 # 2))) as Hlt.
  rewrite inject_Z_plus in Hlt. change (inject_Z 1) with 1 in Hlt.
  split; lra.
Qed.

(** Rounding to one decimal moves a number by a twentieth at most. *)
Lemma roundedToOneDecimal_nearest (x : number) :
  x - (1 # 20) < roundedToOneDecimal x /\ roundedToOneDecimal x <= x + (1 # 20).
Proof.
  unfold roundedToOneDecimal.
  destruct (round_nearest (x * 10)) as [Hlt Hle]. unfold Math.round in Hlt, Hle.
  set (n := inject_Z (Qfloor (x * 10 + (1 # 2)))) in *.
  split.
  - apply Qlt_shift_div_l; [reflexivity | lra].
  - apply Qle_shift_div_r; [reflexivity | lra].
Qed.

(** The maximum of two integers is an integer. *)
Lemma max_integer (a b : Z) : Math.max (inject_Z a) (inject_Z b) = inject_Z (Z.max a b).
Proof.
  unfold Math.max, Qmax, GenericMinMax.gmax.
  destruct (inject_Z a ?= inject_Z b) eqn:E.
  - apply Qeq_alt in E. apply (proj1 (inject_Z_injective a b)) in E.
    subst. now rewrite Z.max_id.
  - apply Qlt_alt in E. rewrite <- Zlt_Qlt in E. now rewrite Z.max_r by lia.
  - apply Qgt_alt in E. rewrite <- Zlt_Qlt in E. now rewrite Z.max_l by lia.
Qed.

(** Rounding to one decimal leaves an integer as it is. *)
Lemma roundedToOneDecimal_integer (z : Z) :
  Math.round (inject_Z z * 10) / 10 == inject_Z z.
Proof.
  unfold Math.round.
  assert (H : Qfloor (inject_Z z * 10 + (1 # 2)) = (z * 10)%Z).
  { apply Z.le_antisymm.
    - apply Z.lt_succ_r. rewrite Zlt_Qlt.
      eapply Qle_lt_trans; [apply Qfloor_le|].
      unfold Z.succ. rewrite !inject_Z_plus, inject_Z_mult.
      apply Qplus_lt_r. reflexivity.
    - rewrite <- (Qfloor_Z (z * 10)). apply Qfloor_resp_le.
      rewrite inject_Z_mult. rewrite <- (Qplus_0_r (inject_Z z * inject_Z 10)) at 1.
      apply Qplus_le_r. discriminate. }
  rewrite H, inject_Z_mult. field.
Qed.

(** ** Doubles *)

Section DoubleProperties.

Import Double.

(** The doubles of 0.1 and 2.53, the product 0.1 * 3 = 0.30000000000000004,
    and two integers above 2^53. *)
Example double_tenth : round (1 # 10) == 3602879701896397 # 2 ^ 55.
Proof. vm_compute. reflexivity. Qed.

Example double_2_53 : round (253 # 100) == 5697053528623677 # 2 ^ 51.
Proof. vm_compute. reflexivity. Qed.

Example mul_tenth_3 : mul (1 # 10) 3 == 1351079888211149 # 2 ^ 52.
Proof. vm_compute. reflexivity. Qed.

Example double_tie_to_even :
  round (inject_Z (2 ^ 53 + 1)) == inject_Z (2 ^ 53) /\
  round (inject_Z (2 ^ 53 + 3)) == inject_Z (2 ^ 53 + 4).
Proof. split; vm_compute; reflexivity. Qed.

Lemma pow2_pos (k : Z) : 0 < 2 ^ k.
Proof. apply Qpower_0_lt. reflexivity. Qed.

Lemma pow2_inject (k : Z) : (0 <= k)%Z -> 2 ^ k == inject_Z (2 ^ k).
Proof. intros Hk. symmetry. exact (Zpower_Qpower 2 k Hk). Qed.

Lemma pow2_succ (k : Z) : 2 ^ (k + 1) == 2 * 2 ^ k.
Proof. rewrite Qpower_plus by discriminate. change (2 ^ 1) with 2. ring. Qed.

Lemma pow2_pred (k : Z) : 2 ^ (k - 1) == 2 ^ k / 2.
Proof.
  pose proof (pow2_succ (k - 1)) as H.
  replace (k - 1 + 1)%Z with k in H by ring.
  rewrite H. field.
Qed.

(** A fraction lies between two powers of two, read off the sizes of its
    numerator and denominator. *)
Lemma log2_bounds (n : Z) (d : positive) :
  (0 < n)%Z ->
  let e := (Z.log2 n - Z.log2 (Z.pos d))%Z in
  2 ^ (e - 1) <= n # d /\ n # d < 2 ^ (e + 1).
Proof.
  intros Hn e. subst e.
  destruct (Z.log2_spec n Hn) as [Hn1 Hn2].
  destruct (Z.log2_spec (Z.pos d) (Pos2Z.is_pos d)) as [Hd1 Hd2].
  pose proof (Z.log2_nonneg n) as Ha. pose proof (Z.log2_nonneg (Z.pos d)) as Hb.
  set (a := Z.log2 n) in *. set (b := Z.log2 (Z.pos d)) in *.
  rewrite (Qmake_Qdiv n d).
  assert (HD : 0 < inject_Z (Z.pos d)) by reflexivity.
  assert (HA : inject_Z (2 ^ a) <= inject_Z n) by (rewrite <- Zle_Qle; lia).
  assert (HA' : inject_Z n < inject_Z (2 ^ (a + 1))) by (rewrite <- Zlt_Qlt; lia).
  assert (HB : inject_Z (2 ^ b) <= inject_Z (Z.pos d)) by (rewrite <- Zle_Qle; lia).
  assert (HB' : inject_Z (Z.pos d) < inject_Z (2 ^ (b + 1))) by (rewrite <- Zlt_Qlt; lia).
  rewrite <- !pow2_inject in * by lia.
  rewrite pow2_succ in HA', HB'.
  replace (a - b - 1)%Z with (a - (b + 1))%Z by ring.
  replace (a - b + 1)%Z with (a + 1 - b)%Z by ring.
  rewrite !Qpower_minus by discriminate.
  rewrite !pow2_succ.
  pose proof (pow2_pos a) as Ha0. pose proof (pow2_pos b) as Hb0.
  set (A := 2 ^ a) in *. set (B := 2 ^ b) in *.
  set (N := inject_Z n) in *. set (D := inject_Z (Z.pos d)) in *.
  clearbody A B N D.
  split.
  - apply Qle_shift_div_l; [exact HD|].
    apply Qle_trans with (A / (2 * B) * (2 * B)).
    + apply Qmult_le_l; [|lra].
      apply Qlt_shift_div_l; lra.
    + rewrite Qmult_comm, Qmult_div_r; lra.
  - apply Qlt_shift_div_r; [exact HD|].
    apply Qlt_le_trans with (2 * A / B * B).
    + rewrite Qmult_comm, Qmult_div_r; lra.
    + apply Qmult_le_l; [|lra].
      apply Qlt_shift_div_l; lra.
Qed.

(** [exponent x] is the power of two at or below [x]. *)
Lemma exponent_spec (x : Q) :
  0 < x -> 2 ^ exponent x <= x /\ x < 2 ^ (exponent x + 1).
Proof.
  intros Hx. destruct x as [n d].
  assert (Hn : (0 < n)%Z).
  { unfold Qlt in Hx. cbn in Hx. lia. }
  destruct (log2_bounds n d Hn) as [Hlo Hhi].
  unfold exponent. cbn [Qnum Qden].
  set (e := (Z.log2 n - Z.log2 (Z.pos d))%Z) in *.
  destruct (Qle_bool (2 ^ e) (n # d)) eqn:E.
  - split; [now apply Qle_bool_iff | exact Hhi].
  - split; [exact Hlo|].
    replace (e - 1 + 1)%Z with e by ring.
    apply Qnot_le_lt. intros H. apply Qle_bool_iff in H. congruence.
Qed.

Lemma exponent_unique (x : Q) (e : Z) :
  2 ^ e <= x -> x < 2 ^ (e + 1) -> exponent x = e.
Proof.
  intros Hlo Hhi.
  assert (Hx : 0 < x) by (eapply Qlt_le_trans; [apply (pow2_pos e) | exact Hlo]).
  destruct (exponent_spec x Hx) as [Hlo' Hhi'].
  assert (H1 : (e < exponent x + 1)%Z).
  { apply (Qpower_lt_compat_l_inv 2); [|reflexivity].
    eapply Qle_lt_trans; eassumption. }
  assert (H2 : (exponent x < e + 1)%Z).
  { apply (Qpower_lt_compat_l_inv 2); [|reflexivity].
    eapply Qle_lt_trans; eassumption. }
  lia.
Qed.

Lemma exponent_comp (x y : Q) : 0 < x -> x == y -> exponent x = exponent y.
Proof.
  intros Hx E. symmetry.
  destruct (exponent_spec x Hx) as [Hlo Hhi].
  apply exponent_unique; rewrite <- E; assumption.
Qed.

(** *** The nearest integer *)

Lemma nearestEven_cases (x : Q) :
  (nearestEven x = Qfloor x /\ x - inject_Z (Qfloor x) <= 1 # 2) \/
  (nearestEven x = (Qfloor x + 1)%Z /\ 1 # 2 <= x - inject_Z (Qfloor x)).
Proof.
  unfold nearestEven.
  destruct (Qcompare_spec (x - inject_Z (Qfloor x)) (1 # 2)) as [E|E|E].
  - destruct (Z.even (Qfloor x)); [left | right]; (split; [reflexivity|]);
      rewrite E; apply Qle_refl.
  - left. split; [reflexivity | now apply Qlt_le_weak].
  - right. split; [reflexivity | now apply Qlt_le_weak].
Qed.

(** The nearest integer is within a half. *)
Lemma nearestEven_error (x : Q) :
  Qabs (inject_Z (nearestEven x) - x) <= 1 # 2.
Proof.
  pose proof (Qfloor_le x) as Hlo. pose proof (Qlt_floor x) as Hhi.
  rewrite inject_Z_plus in Hhi. change (inject_Z 1) with 1 in Hhi.
  apply Qabs_Qle_condition.
  destruct (nearestEven_cases x) as [[-> H]|[-> H]].
  - lra.
  - rewrite inject_Z_plus. change (inject_Z 1) with 1. lra.
Qed.

Lemma nearestEven_comp (x y : Q) : x == y -> nearestEven x = nearestEven y.
Proof.
  intros E. unfold nearestEven.
  rewrite (Qfloor_comp x y E).
  now rewrite (Qcompare_comp (x - inject_Z (Qfloor y)) (y - inject_Z (Qfloor y))
                 (ltac:(now rewrite E)) (1 # 2) (1 # 2) (Qeq_refl _)).
Qed.

Lemma nearestEven_Z (n : Z) : nearestEven (inject_Z n) = n.
Proof.
  unfold nearestEven. rewrite Qfloor_Z.
  assert (E : inject_Z n - inject_Z n == 0) by ring.
  now rewrite (Qcompare_comp _ _ E (1 # 2) (1 # 2) (Qeq_refl _)).
Qed.

Lemma nearestEven_monotone (x y : Q) :
  x <= y -> (nearestEven x <= nearestEven y)%Z.
Proof.
  intros Hxy.
  destruct (Qeq_dec x y) as [E|E].
  { rewrite (nearestEven_comp x y E). lia. }
  assert (Hlt : x < y) by (apply Qle_lteq in Hxy; tauto).
  pose proof (Qfloor_resp_le x y Hxy) as Hfl.
  destruct (nearestEven_cases x) as [[-> Hx]|[-> Hx]];
    destruct (nearestEven_cases y) as [[-> Hy]|[-> Hy]]; try lia.
  destruct (Z.eq_dec (Qfloor x) (Qfloor y)) as [E'|E']; [|lia].
  exfalso. rewrite E' in Hx. lra.
Qed.

(** *** The nearest double *)


Lemma ulp_pos (x : Q) : 0 < ulp x.
Proof. apply pow2_pos. Qed.

Lemma ulp_exponent (x : Q) : ulp x * 2 ^ 52 == 2 ^ exponent x.
Proof.
  unfold ulp. rewrite <- Qpower_plus by discriminate.
  now replace (exponent x - 52 + 52)%Z with (exponent x) by ring.
Qed.

Lemma roundPositive_comp (x y : Q) :
  0 < x -> x == y -> roundPositive x == roundPositive y.
Proof.
  intros Hx E. unfold roundPositive.
  unfold ulp. rewrite <- (exponent_comp x y Hx E).
  rewrite (nearestEven_comp (x / 2 ^ (exponent x - 52)) (y / 2 ^ (exponent x - 52))).
  - reflexivity.
  - apply Qmult_comp; [exact E | reflexivity].
Qed.

(** The nearest double is within half a spacing, that is within 2^-53 of
    the value. *)
Lemma roundPositive_error (x : Q) :
  0 < x -> Qabs (roundPositive x - x) <= (1 # 2 ^ 53) * x.
Proof.
  intros Hx. unfold roundPositive. fold (ulp x).
  pose proof (ulp_pos x) as Hs. pose proof (ulp_exponent x) as Hse.
  destruct (exponent_spec x Hx) as [Hlo _].
  pose proof (nearestEven_error (x / ulp x)) as Herr.
  apply Qabs_Qle_condition in Herr.
  set (r := inject_Z (nearestEven (x / ulp x))) in *.
  set (s := ulp x) in *. set (E := 2 ^ exponent x) in *.
  assert (Hm : x / s * s == x) by (field; lra).
  set (m := x / s) in *. clearbody r s E m.
  apply Qabs_Qle_condition.
  change (2 ^ 52) with (inject_Z (2 ^ 52)) in Hse.
  assert (H1 : (r - m) * s <= (1 # 2) * s) by (apply Qmult_le_compat_r; lra).
  assert (H2 : - (1 # 2) * s <= (r - m) * s) by (apply Qmult_le_compat_r; lra).
  assert (H3 : (r - m) * s == r * s - x) by (rewrite <- Hm; ring).
  change (1 # 2 ^ 53) with (1 # 9007199254740992).
  change (inject_Z (2 ^ 52)) with 4503599627370496 in Hse.
  lra.
Qed.

(** Rounding stays between the two powers of two around the value. *)
Lemma roundPositive_lower (x : Q) :
  0 < x -> 2 ^ exponent x <= roundPositive x.
Proof.
  intros Hx. unfold roundPositive. fold (ulp x).
  pose proof (ulp_pos x) as Hs. pose proof (ulp_exponent x) as Hse.
  destruct (exponent_spec x Hx) as [Hlo _].
  rewrite <- Hse, Qmult_comm.
  apply Qmult_le_compat_r; [|lra].
  change (2 ^ 52) with (inject_Z (2 ^ 52)). rewrite <- Zle_Qle.
  rewrite <- (nearestEven_Z (2 ^ 52)) at 1.
  apply nearestEven_monotone.
  apply Qle_shift_div_l; [exact Hs|].
  change (inject_Z (2 ^ 52)) with (2 ^ 52). rewrite Qmult_comm, Hse. exact Hlo.
Qed.

Lemma roundPositive_upper (x : Q) :
  0 < x -> roundPositive x <= 2 ^ (exponent x + 1).
Proof.
  intros Hx. unfold roundPositive. fold (ulp x).
  pose proof (ulp_pos x) as Hs. pose proof (ulp_exponent x) as Hse.
  destruct (exponent_spec x Hx) as [_ Hhi].
  rewrite pow2_succ in *. rewrite <- Hse in *.
  setoid_replace (2 * (ulp x * 2 ^ 52)) with (2 ^ 53 * ulp x)
    by (change (2 ^ 53) with (2 * 2 ^ 52); ring).
  apply Qmult_le_compat_r; [|lra].
  change (2 ^ 53) with (inject_Z (2 ^ 53)). rewrite <- Zle_Qle.
  rewrite <- (nearestEven_Z (2 ^ 53)) at 1.
  apply nearestEven_monotone.
  apply Qle_shift_div_r; [exact Hs|].
  change (inject_Z (2 ^ 53)) with (2 * 2 ^ 52). lra.
Qed.

Lemma roundPositive_pos (x : Q) : 0 < x -> 0 < roundPositive x.
Proof.
  intros Hx. eapply Qlt_le_trans; [apply pow2_pos | now apply roundPositive_lower].
Qed.

Lemma exponent_monotone (x y : Q) :
  0 < x -> x <= y -> (exponent x <= exponent y)%Z.
Proof.
  intros Hx Hxy.
  destruct (exponent_spec x Hx) as [Hlo _].
  destruct (exponent_spec y (Qlt_le_trans _ _ _ Hx Hxy)) as [_ Hhi].
  assert (H : (exponent x < exponent y + 1)%Z); [|lia].
  apply (Qpower_lt_compat_l_inv 2); [|reflexivity].
  eapply Qle_lt_trans; [exact Hlo|]. eapply Qle_lt_trans; eassumption.
Qed.

Lemma roundPositive_monotone (x y : Q) :
  0 < x -> x <= y -> roundPositive x <= roundPositive y.
Proof.
  intros Hx Hxy.
  assert (Hy : 0 < y) by (eapply Qlt_le_trans; eassumption).
  pose proof (exponent_monotone x y Hx Hxy) as He.
  destruct (Z.eq_dec (exponent x) (exponent y)) as [E|E].
  - unfold roundPositive, ulp. rewrite E.
    apply Qmult_le_compat_r; [|apply Qlt_le_weak, pow2_pos].
    rewrite <- Zle_Qle. apply nearestEven_monotone.
    apply Qmult_le_compat_r; [exact Hxy|].
    apply Qinv_le_0_compat, Qlt_le_weak, pow2_pos.
  - apply Qle_trans with (2 ^ (exponent x + 1)); [now apply roundPositive_upper|].
    apply Qle_trans with (2 ^ exponent y); [|now apply roundPositive_lower].
    apply Qpower_le_compat_l; [lia | discriminate].
Qed.

Lemma roundPositive_Z (n : Z) :
  (0 < n < 2 ^ 53)%Z -> roundPositive (inject_Z n) == inject_Z n.
Proof.
  intros [Hn Hn53].
  assert (Hx : 0 < inject_Z n) by (change 0 with (inject_Z 0); now rewrite <- Zlt_Qlt).
  destruct (exponent_spec _ Hx) as [Hlo _].
  assert (He : (exponent (inject_Z n) < 53)%Z).
  { apply (Qpower_lt_compat_l_inv 2); [|reflexivity].
    eapply Qle_lt_trans; [exact Hlo|].
    change (2 ^ 53) with (inject_Z (2 ^ 53)). now rewrite <- Zlt_Qlt. }
  unfold roundPositive, ulp.
  set (e := exponent (inject_Z n)) in *.
  assert (Hs : 2 ^ (e - 52) == / inject_Z (2 ^ (52 - e))).
  { replace (e - 52)%Z with (- (52 - e))%Z by ring.
    rewrite Qpower_opp, pow2_inject by lia. reflexivity. }
  assert (Hk : 0 < inject_Z (2 ^ (52 - e))).
  { rewrite <- pow2_inject by lia. apply pow2_pos. }
  rewrite (nearestEven_comp _ (inject_Z (n * 2 ^ (52 - e)))).
  - rewrite nearestEven_Z, Hs, inject_Z_mult. field. lra.
  - rewrite Hs, inject_Z_mult. field. lra.
Qed.

Lemma double_positive (x : Q) : 0 < x -> round x == roundPositive x.
Proof.
  intros Hx. unfold round. rewrite Qred_correct.
  now rewrite (proj1 (Qgt_alt x 0) Hx).
Qed.

Lemma double_negative (x : Q) : x < 0 -> round x == - roundPositive (- x).
Proof.
  intros Hx. unfold round. rewrite Qred_correct.
  now rewrite (proj1 (Qlt_alt x 0) Hx).
Qed.

Lemma double_zero (x : Q) : x == 0 -> round x == 0.
Proof.
  intros Hx. unfold round. rewrite Qred_correct.
  now rewrite (proj1 (Qeq_alt x 0) Hx).
Qed.

(** Equal numbers have the same double, as one reduced fraction. *)
Lemma double_compat (x y : Q) : x == y -> round x = round y.
Proof.
  intros E. unfold round. apply Qred_complete.
  rewrite <- (Qcompare_comp x y E 0 0 (Qeq_refl 0)).
  destruct (Qcompare_spec x 0) as [H|H|H].
  - reflexivity.
  - apply Qopp_comp, roundPositive_comp; [lra | now rewrite E].
  - now apply roundPositive_comp.
Qed.

(** The relative error of rounding is at most 2^-53. *)
Lemma double_error (x : Q) : Qabs (round x - x) <= (1 # 2 ^ 53) * Qabs x.
Proof.
  destruct (Qcompare_spec x 0) as [H|H|H].
  - rewrite (double_zero x H), H. discriminate.
  - rewrite (double_negative x H), (Qabs_neg x) by lra.
    setoid_replace (- roundPositive (- x) - x) with (- (roundPositive (- x) - - x))
      by ring.
    rewrite Qabs_opp. apply roundPositive_error. lra.
  - rewrite (double_positive x H), (Qabs_pos x) by lra.
    now apply roundPositive_error.
Qed.

Lemma double_nonneg (x : Q) : 0 <= x -> 0 <= round x.
Proof.
  intros Hx. destruct (Qcompare_spec x 0) as [H|H|H].
  - rewrite (double_zero x H). apply Qle_refl.
  - lra.
  - rewrite (double_positive x H). apply Qlt_le_weak. now apply roundPositive_pos.
Qed.

Lemma double_nonpos (x : Q) : x <= 0 -> round x <= 0.
Proof.
  intros Hx. destruct (Qcompare_spec x 0) as [H|H|H].
  - rewrite (double_zero x H). apply Qle_refl.
  - rewrite (double_negative x H).
    assert (0 < roundPositive (- x)) by (apply roundPositive_pos; lra). lra.
  - lra.
Qed.

(** Rounding keeps the order. *)
Lemma double_monotone (x y : Q) : x <= y -> round x <= round y.
Proof.
  intros Hxy.
  destruct (Qcompare_spec x 0) as [Hx|Hx|Hx].
  - rewrite (double_zero x Hx). apply double_nonneg. lra.
  - destruct (Qlt_le_dec y 0) as [Hy|Hy].
    + rewrite (double_negative x Hx), (double_negative y Hy).
      apply Qopp_le_compat. apply roundPositive_monotone; lra.
    + apply Qle_trans with 0; [apply double_nonpos; lra | now apply double_nonneg].
  - rewrite (double_positive x Hx), (double_positive y) by lra.
    now apply roundPositive_monotone.
Qed.

(** The integers below 2^53 in magnitude are doubles. *)
Lemma double_integer (n : Z) :
  (Z.abs n < 2 ^ 53)%Z -> round (inject_Z n) == inject_Z n.
Proof.
  intros Hn. destruct (Z.lt_trichotomy n 0) as [H|[->|H]].
  - rewrite double_negative by (change 0 with (inject_Z 0); now rewrite <- Zlt_Qlt).
    rewrite <- inject_Z_opp, roundPositive_Z by lia.
    rewrite inject_Z_opp. ring.
  - reflexivity.
  - rewrite double_positive by (change 0 with (inject_Z 0); now rewrite <- Zlt_Qlt).
    apply roundPositive_Z. lia.
Qed.

Lemma roundPositive_fixed (y : Q) (k : Z) :
  0 < y -> y == inject_Z k * ulp y -> roundPositive y == y.
Proof.
  intros Hy E. unfold roundPositive.
  pose proof (ulp_pos y) as Hs.
  rewrite (nearestEven_comp (y / ulp y) (inject_Z k)).
  - rewrite nearestEven_Z. now symmetry.
  - rewrite E at 1. field. lra.
Qed.

Lemma roundPositive_idempotent (x : Q) :
  0 < x -> roundPositive (roundPositive x) == roundPositive x.
Proof.
  intros Hx.
  pose proof (roundPositive_lower x Hx) as Hlo.
  pose proof (roundPositive_upper x Hx) as Hhi.
  pose proof (roundPositive_pos x Hx) as Hy.
  destruct (Qlt_le_dec (roundPositive x) (2 ^ (exponent x + 1))) as [H|H].
  - apply (roundPositive_fixed _ (nearestEven (x / ulp x))); [exact Hy|].
    unfold ulp at 2. rewrite (exponent_unique _ _ Hlo H). reflexivity.
  - assert (E : roundPositive x == 2 ^ (exponent x + 1)) by lra.
    apply (roundPositive_fixed _ (2 ^ 52)); [exact Hy|].
    unfold ulp at 1. rewrite (exponent_unique _ (exponent x + 1)).
    + rewrite E. change (inject_Z (2 ^ 52)) with (2 ^ 52).
      rewrite <- Qpower_plus by discriminate.
      now replace (52 + (exponent x + 1 - 52))%Z with (exponent x + 1)%Z by ring.
    + lra.
    + rewrite E. apply Qpower_lt_compat_l; [lia | reflexivity].
Qed.

Lemma double_opp (x : Q) : round (- x) == - round x.
Proof.
  destruct (Qcompare_spec x 0) as [H|H|H].
  - rewrite (double_zero x H), (double_zero (- x)) by lra. reflexivity.
  - rewrite (double_negative x H), (double_positive (- x)) by lra. ring.
  - rewrite (double_positive x H), (double_negative (- x)) by lra.
    apply Qopp_comp. apply roundPositive_comp; [lra | ring].
Qed.

(** Rounding a double gives it back. *)
Lemma double_idempotent (x : Q) : round (round x) == round x.
Proof.
  destruct (Qcompare_spec x 0) as [H|H|H].
  - rewrite (double_compat (round x) 0) by now apply double_zero.
    now rewrite (double_zero x H).
  - rewrite (double_compat (round x) (- roundPositive (- x)))
      by now apply double_negative.
    rewrite double_opp, (double_negative x H).
    apply Qopp_comp.
    rewrite double_positive by (apply roundPositive_pos; lra).
    apply roundPositive_idempotent. lra.
  - rewrite (double_compat (round x) (roundPositive x))
      by now apply double_positive.
    rewrite (double_positive x H).
    rewrite double_positive by now apply roundPositive_pos.
    now apply roundPositive_idempotent.
Qed.

(** *** Products *)

Lemma mul_compat (x x' y y' : Q) :
  x == x' -> y == y' -> mul x y = mul x' y'.
Proof.
  intros Ex Ey. unfold mul.
  now rewrite (double_compat x x' Ex), (double_compat y y' Ey).
Qed.

Lemma mul_opp_l (x y : Q) : mul (- x) y == - mul x y.
Proof.
  unfold mul.
  rewrite (double_compat (round (- x) * round y) (- (round x * round y))).
  - apply double_opp.
  - rewrite double_opp. ring.
Qed.

Lemma mul_comm (x y : Q) : mul x y = mul y x.
Proof. unfold mul. apply double_compat. ring. Qed.

Lemma mul_nonneg (x y : Q) : 0 <= x -> 0 <= y -> 0 <= mul x y.
Proof.
  intros Hx Hy. apply double_nonneg.
  apply Qmult_le_0_compat; now apply double_nonneg.
Qed.

Lemma mul_monotone (x y c : Q) : 0 <= c -> x <= y -> mul x c <= mul y c.
Proof.
  intros Hc Hxy. apply double_monotone.
  apply Qmult_le_compat_r; [now apply double_monotone | now apply double_nonneg].
Qed.

(** A product of integers that stays below 2^53 is exact. *)
Lemma mul_integer (n m : Z) :
  (Z.abs n < 2 ^ 53)%Z -> (Z.abs m < 2 ^ 53)%Z -> (Z.abs (n * m) < 2 ^ 53)%Z ->
  mul (inject_Z n) (inject_Z m) == inject_Z (n * m).
Proof.
  intros Hn Hm Hnm. unfold mul.
  rewrite (double_compat _ (inject_Z (n * m))).
  - now apply double_integer.
  - rewrite inject_Z_mult, !double_integer by assumption. reflexivity.
Qed.

Lemma mul_error_nonneg (x y : Q) :
  0 <= x -> 0 <= y ->
  Qabs (mul x y - x * y) <= (1 # 2 ^ 51) * (x * y).
Proof.
  intros Hx Hy.
  pose proof (double_error x) as Ex. pose proof (double_error y) as Ey.
  pose proof (double_error (round x * round y)) as Ez.
  pose proof (double_nonneg x Hx) as Hx'. pose proof (double_nonneg y Hy) as Hy'.
  rewrite (Qabs_pos x) in Ex by assumption.
  rewrite (Qabs_pos y) in Ey by assumption.
  rewrite (Qabs_pos (round x * round y)) in Ez by now apply Qmult_le_0_compat.
  apply Qabs_Qle_condition in Ex, Ey, Ez. apply Qabs_Qle_condition.
  unfold mul.
  set (z := round (round x * round y)) in *.
  set (x' := round x) in *. set (y' := round y) in *. clearbody z x' y'.
  change (1 # 2 ^ 53) with (1 # 9007199254740992) in *.
  change (1 # 2 ^ 51) with (1 # 2251799813685248).
  assert (Hup : x' * y' <= (1 + (1 # 9007199254740992)) * x
                           * ((1 + (1 # 9007199254740992)) * y))
    by (apply Qmult_le_compat_nonneg; lra).
  assert (Hdn : (1 - (1 # 9007199254740992)) * x
                * ((1 - (1 # 9007199254740992)) * y) <= x' * y')
    by (apply Qmult_le_compat_nonneg; lra).
  assert (Eup : (1 + (1 # 9007199254740992)) * x
                * ((1 + (1 # 9007199254740992)) * y)
                == (1 + (1 # 9007199254740992)) * (1 + (1 # 9007199254740992))
                   * (x * y)) by ring.
  assert (Edn : (1 - (1 # 9007199254740992)) * x
                * ((1 - (1 # 9007199254740992)) * y)
                == (1 - (1 # 9007199254740992)) * (1 - (1 # 9007199254740992))
                   * (x * y)) by ring.
  rewrite Eup in Hup. rewrite Edn in Hdn.
  assert (HP : 0 <= x * y) by now apply Qmult_le_0_compat.
  set (P := x * y) in *. set (W := x' * y') in *. clearbody P W.
  lra.
Qed.

(** The product is within a relative error of 2^-51 of the exact one: each
    operand is within 2^-53 of its double, and so is their product. *)
Lemma mul_error (x y : Q) :
  Qabs (mul x y - x * y) <= (1 # 2 ^ 51) * Qabs (x * y).
Proof.
  assert (Hpos : forall a b, 0 <= a -> 0 <= b ->
            Qabs (mul a b - a * b) <= (1 # 2 ^ 51) * Qabs (a * b)).
  { intros a b Ha Hb. rewrite (Qabs_pos (a * b)) by now apply Qmult_le_0_compat.
    now apply mul_error_nonneg. }
  assert (Hneg : forall a b, a <= 0 -> 0 <= b ->
            Qabs (mul a b - a * b) <= (1 # 2 ^ 51) * Qabs (a * b)).
  { intros a b Ha Hb.
    assert (Ha' : 0 <= - a) by lra.
    pose proof (Hpos (- a) b Ha' Hb) as H.
    rewrite mul_opp_l in H.
    setoid_replace (- mul a b - - a * b) with (- (mul a b - a * b)) in H by ring.
    setoid_replace (- a * b) with (- (a * b)) in H by ring.
    now rewrite !Qabs_opp in H. }
  destruct (Qlt_le_dec y 0) as [Hy|Hy].
  - assert (Hy' : 0 <= - y) by lra.
    assert (E : Qabs (mul x y - x * y)
                == Qabs (mul x (- y) - x * - y)).
    { rewrite (mul_comm x (- y)), mul_opp_l, (mul_comm y x).
      setoid_replace (- mul x y - x * - y) with (- (mul x y - x * y)) by ring.
      now rewrite Qabs_opp. }
    assert (E' : Qabs (x * y) == Qabs (x * - y)).
    { setoid_replace (x * - y) with (- (x * y)) by ring. now rewrite Qabs_opp. }
    rewrite E, E'.
    destruct (Qlt_le_dec x 0); [apply Hneg | apply Hpos]; lra.
  - destruct (Qlt_le_dec x 0); [apply Hneg | apply Hpos]; lra.
Qed.

Lemma mul_nonpos (x y : Q) : x <= 0 -> 0 <= y -> mul x y <= 0.
Proof.
  intros Hx Hy.
  assert (H : 0 <= mul (- x) y) by (apply mul_nonneg; lra).
  rewrite mul_opp_l in H. lra.
Qed.

(** *** Minutes, doubled, in milliseconds: [p * 2 * 60 * 1000] *)

Lemma doubledInMs_nonpos (p : Q) :
  p <= 0 -> mul (mul (mul p 2) 60) 1000 <= 0.
Proof.
  intros Hp. repeat (apply mul_nonpos; [|discriminate]). exact Hp.
Qed.

Lemma doubledInMs_monotone (p q : Q) :
  p <= q -> mul (mul (mul p 2) 60) 1000 <= mul (mul (mul q 2) 60) 1000.
Proof.
  intros Hpq. repeat (apply mul_monotone; [discriminate|]). exact Hpq.
Qed.

Lemma doubledInMs_compat (p q : Q) :
  p == q -> mul (mul (mul p 2) 60) 1000 = mul (mul (mul q 2) 60) 1000.
Proof.
  intros E. now rewrite (mul_compat p q 2 2 E (Qeq_refl 2)).
Qed.

(** Three products, each within 2^-51: within 2^-49 together. *)
Lemma doubledInMs_error (p : Q) :
  0 <= p ->
  Qabs (mul (mul (mul p 2) 60) 1000 - p * 2 * 60000)
  <= (1 # 2 ^ 49) * (p * 2 * 60000).
Proof.
  intros Hp.
  assert (H1 : 0 <= mul p 2) by (apply mul_nonneg; [exact Hp | discriminate]).
  assert (H2 : 0 <= mul (mul p 2) 60) by (apply mul_nonneg; [exact H1 | discriminate]).
  pose proof (mul_error_nonneg p 2 Hp ltac:(discriminate)) as E1.
  pose proof (mul_error_nonneg (mul p 2) 60 H1 ltac:(discriminate)) as E2.
  pose proof (mul_error_nonneg (mul (mul p 2) 60) 1000 H2 ltac:(discriminate)) as E3.
  apply Qabs_Qle_condition in E1, E2, E3. apply Qabs_Qle_condition.
  set (a1 := mul p 2) in *. set (a2 := mul a1 60) in *.
  set (a3 := mul a2 1000) in *. clearbody a1 a2 a3.
  change (1 # 2 ^ 51) with (1 # 2251799813685248) in *.
  change (1 # 2 ^ 49) with (1 # 562949953421312).
  lra.
Qed.

(** A whole number of minutes below 2^36 is converted exactly. *)
Lemma doubledInMs_integer (n : Z) :
  (Z.abs n < 2 ^ 36)%Z ->
  mul (mul (mul (inject_Z n) 2) 60) 1000 == inject_Z n * 2 * 60000.
Proof.
  intros Hn.
  change (2 ^ 36)%Z with 68719476736%Z in Hn.
  assert (E1 : mul (inject_Z n) 2 == inject_Z (n * 2)).
  { apply (mul_integer n 2); change (2 ^ 53)%Z with 9007199254740992%Z; lia. }
  assert (E2 : mul (mul (inject_Z n) 2) 60 == inject_Z (n * 2 * 60)).
  { rewrite (mul_compat _ (inject_Z (n * 2)) 60 60 E1 (Qeq_refl _)).
    apply (mul_integer (n * 2) 60); change (2 ^ 53)%Z with 9007199254740992%Z; lia. }
  rewrite (mul_compat _ (inject_Z (n * 2 * 60)) 1000 1000 E2 (Qeq_refl _)).
  rewrite (mul_integer (n * 2 * 60) 1000)
    by (change (2 ^ 53)%Z with 9007199254740992%Z; lia).
  rewrite !inject_Z_mult. change (inject_Z 1000) with 1000.
  change (inject_Z 60) with 60. change (inject_Z 2) with 2. ring.
Qed.

(** With the floor of 300000 ms, the rounded product is within 2^-49 of the
    exact one, whatever the sign of [p]. *)
Lemma retentionMs_error (p : Q) :
  Qabs (Qmax (mul (mul (mul p 2) 60) 1000) 300000 - Qmax (p * 2 * 60000) 300000)
  <= (1 # 2 ^ 49) * Qmax (p * 2 * 60000) 300000.
Proof.
  change (1 # 2 ^ 49) with (1 # 562949953421312).
  destruct (Qlt_le_dec 0 p) as [Hp|Hp].
  - pose proof (doubledInMs_error p (Qlt_le_weak _ _ Hp)) as E.
    change (1 # 2 ^ 49) with (1 # 562949953421312) in E.
    apply Qabs_Qle_condition in E. apply Qabs_Qle_condition.
    set (a := mul (mul (mul p 2) 60) 1000) in *. clearbody a.
    destruct (Q.max_spec a 300000) as [[Ha Ea]|[Ha Ea]];
      destruct (Q.max_spec (p * 2 * 60000) 300000) as [[Hq Eq]|[Hq Eq]];
      rewrite Ea, Eq; lra.
  - pose proof (doubledInMs_nonpos p Hp) as Ha.
    rewrite (Q.max_r (mul (mul (mul p 2) 60) 1000) 300000) by lra.
    rewrite (Q.max_r (p * 2 * 60000) 300000) by lra.
    setoid_replace (300000 - 300000) with 0 by ring. discriminate.
Qed.

End DoubleProperties.

(** ** Strings *)

Lemma prefix_app (p s : string) : String.prefix p (p ++ s) = true.
Proof.
  induction p as [|c p IH]; simpl.
  - now destruct s.
  - destruct (ascii_dec c c); [exact IH | congruence].
Qed.

Lemma includes_prefix (sub s : string) :
  String.prefix sub s = true -> includes sub s = true.
Proof. intros H. destruct s; cbn [includes]; now rewrite H. Qed.

Lemma includes_app (pre sub post : string) :
  includes sub (pre ++ sub ++ post) = true.
Proof.
  induction pre as [|c pre IH].
  - cbn [append]. apply includes_prefix, prefix_app.
  - simpl. rewrite IH. apply orb_true_r.
Qed.

Lemma append_assoc (a b c : string) : (a ++ b) ++ c = a ++ b ++ c.
Proof. induction a as [|x a IH]; simpl; [reflexivity | now rewrite IH]. Qed.

Lemma includes_app_after (p1 a p2 sub post : string) :
  includes sub (p1 ++ a ++ p2 ++ sub ++ post) = true.
Proof.
  rewrite <- (append_assoc a p2), <- (append_assoc p1). apply includes_app.
Qed.

Lemma existsb_push {A : Type} (f : A -> bool) (xs : list A) (x : A) :
  existsb f (push xs x) = existsb f xs || f x.
Proof.
  unfold push. rewrite existsb_app. simpl. now rewrite orb_false_r.
Qed.

(** One conditional push, seen through [existsb]. *)
Lemma existsb_if_push {A : Type} (f : A -> bool) (c : bool) (xs : list A) (x : A) :
  existsb f (if c then push xs x else xs) = existsb f xs || (c && f x).
Proof.
  destruct c; cbn [andb]; [apply existsb_push | now rewrite orb_false_r].
Qed.

Lemma Forall_push {A : Type} (P : A -> Prop) (xs : list A) (x : A) :
  Forall P (push xs x) <-> Forall P xs /\ P x.
Proof.
  unfold push. rewrite Forall_app. split.
  - intros [Hxs Hx]. split; [assumption | now inversion Hx].
  - intros [Hxs Hx]. split; [assumption | now constructor].
Qed.

Lemma Forall_if_push {A : Type} (P : A -> Prop) (c : bool) (xs : list A) (x : A) :
  Forall P xs -> P x -> Forall P (if c then push xs x else xs).
Proof.
  intros Hxs Hx. destruct c; [|assumption]. now apply Forall_push.
Qed.

(** ** The engine *)

(** Runs the engine in a hypothesis [H : computeRecommendations r = Normal rec]:
    the redo-log fact is an array, the LOB branch is taken or not, and [rec]
    becomes the record that is returned. *)
Ltac run_engine H :=
  unfold computeRecommendations in H;
  match type of H with
  | context [deref (redoLogConfig ?r) _] =>
      let rows := fresh "rows" in
      let Hrows := fresh "Hrows" in
      destruct (redoLogConfig r) as [rows|] eqn:Hrows;
      [cbn [deref bind] in H | discriminate H];
      let cols := fresh "cols" in
      let Hcols := fresh "Hcols" in
      let Hlobs := fresh "Hlobs" in
      destruct (lobColumns r) as [cols|] eqn:Hcols;
      [destruct (gtb (lengthOf cols) 0) eqn:Hlobs|];
      cbn [deref bind] in H;
      injection H as H; subst
  end.

(** Closes a goal whose hypotheses order two numbers both ways. *)
Ltac order_contradiction :=
  match goal with
  | H1 : ?x < ?y, H2 : ?y <= ?x |- _ => exfalso; exact (Qlt_not_le _ _ H1 H2)
  end.

Lemma gtb_lengthOf {A : Type} (xs : list A) :
  gtb (lengthOf xs) 0 = match xs with [] => false | _ :: _ => true end.
Proof.
  destruct xs as [|x xs]; [reflexivity|].
  apply gtb_true_iff. unfold lengthOf. change 0 with (inject_Z 0).
  rewrite <- Zlt_Qlt. cbn [List.length]. lia.
Qed.

Lemma strictNeqString_optChain (first : Json) (key expected : string) :
  strictNeqString (optChain (Some first) key) expected
  = negb (memberIsString first key expected).
Proof.
  destruct first as [| b | n | s | elems | members]; try reflexivity.
  cbn [optChain memberIsString strictNeqString].
  destruct (lookupMember key members) as [[| b | n | s | elems | ms]|];
    reflexivity.
Qed.

Lemma risk_condition_iff (samples minWindow hours : number) :
  gtb samples 0 && ltb minWindow hours = true <->
  0 < samples /\ minWindow < hours.
Proof.
  rewrite andb_true_iff, gtb_true_iff, ltb_true_iff. reflexivity.
Qed.

Section EngineProperties.

Context {fmt : NumberFormat}.

(** *** Returning and throwing *)

(** The engine throws when the redo-log fact is [null]. *)
Lemma computeRecommendations_null_redoLogConfig (r : DiagReport) :
  redoLogConfig r = None ->
  computeRecommendations r =
  Throw (TypeError "Cannot read properties of null (reading 'length')").
Proof.
  intros H. unfold computeRecommendations. rewrite H. reflexivity.
Qed.

(** The engine returns when the redo-log fact is an array. *)
Lemma computeRecommendations_returns (r : DiagReport) (rows : list RedoLogRow) :
  redoLogConfig r = Some rows ->
  exists rec, computeRecommendations r = Normal rec.
Proof.
  intros H. unfold computeRecommendations. rewrite H. cbn [deref bind].
  destruct (lobColumns r) as [cols|];
    [destruct (gtb (lengthOf cols) 0)|]; cbn [deref bind]; eauto.
Qed.

(** *** The list of warnings *)

(** Each warning opens with the words that name it. *)
Lemma isLobWarning_lobWarning (cols : list LobColumn) (m : string) :
  isLobWarning (lobWarning cols m) = true.
Proof. apply prefix_app. Qed.

Lemma isQueryFilterWarning_queryFilterWarning (ratio : number) :
  isQueryFilterWarning (queryFilterWarning ratio) = true.
Proof. apply prefix_app. Qed.

Lemma isArchiveLagWarning_archiveLagWarning (x : number) :
  isArchiveLagWarning (archiveLagWarning x) = true.
Proof. apply (prefix_app "archive_lag_target is 0"). Qed.

Lemma isSupplementalLoggingWarning_supplementalLoggingWarning :
  isSupplementalLoggingWarning supplementalLoggingWarning = true.
Proof. reflexivity. Qed.

Lemma isRetentionRiskWarning_retentionRiskWarning (w h : number) :
  isRetentionRiskWarning (retentionRiskWarning w h) = true.
Proof. apply (prefix_app "ORA-00308 RISK: "). Qed.

Create Rewrite HintDb warnings.

#[local] Hint Rewrite
  isLobWarning_lobWarning isQueryFilterWarning_queryFilterWarning
  isArchiveLagWarning_archiveLagWarning
  isSupplementalLoggingWarning_supplementalLoggingWarning
  isRetentionRiskWarning_retentionRiskWarning : warnings.

(** The supplemental-logging check, seen through [existsb]. *)
Lemma existsb_supplementalLogging_check
  (f : string -> bool) (suppLog : Json) (ws : list string) :
  existsb f
    match (if truthy suppLog then asArray suppLog else None) with
    | Some elems =>
        if gtb (lengthOf elems) 0 then
          if strictNeqString
               (optChain (List.head elems) "SUPPLEMENTAL_LOG_DATA_MIN") "YES"
          then push ws supplementalLoggingWarning
          else ws
        else ws
    | None => ws
    end
  = existsb f ws || (minimalLoggingNotEnabled suppLog && f supplementalLoggingWarning).
Proof.
  destruct suppLog as [| b | n | s | elems | members];
    cbn [truthy asArray minimalLoggingNotEnabled];
    try (now rewrite orb_false_r).
  - destruct b; now rewrite orb_false_r.
  - destruct (negb (Qeq_bool n 0)); now rewrite orb_false_r.
  - destruct (negb (s =? "")); now rewrite orb_false_r.
  - rewrite gtb_lengthOf. destruct elems as [|first rest].
    + now rewrite orb_false_r.
    + cbn [List.head]. rewrite strictNeqString_optChain. apply existsb_if_push.
Qed.

(** The same check, for a property of every warning. *)
Lemma Forall_supplementalLogging_check
  (P : string -> Prop) (suppLog : Json) (ws : list string) :
  Forall P ws -> P supplementalLoggingWarning ->
  Forall P
    match (if truthy suppLog then asArray suppLog else None) with
    | Some elems =>
        if gtb (lengthOf elems) 0 then
          if strictNeqString
               (optChain (List.head elems) "SUPPLEMENTAL_LOG_DATA_MIN") "YES"
          then push ws supplementalLoggingWarning
          else ws
        else ws
    | None => ws
    end.
Proof.
  intros Hws Hw.
  destruct (if truthy suppLog then asArray suppLog else None) as [elems|];
    [|assumption].
  destruct (gtb (lengthOf elems) 0); [|assumption].
  now apply Forall_if_push.
Qed.

(** Evaluates the tests of kind on warnings of another kind. *)
Ltac other_kinds :=
  repeat match goal with
         | |- context [isLobWarning ?w] => change (isLobWarning w) with false
         | |- context [isQueryFilterWarning ?w] =>
             change (isQueryFilterWarning w) with false
         | |- context [isArchiveLagWarning ?w] =>
             change (isArchiveLagWarning w) with false
         | |- context [isSupplementalLoggingWarning ?w] =>
             change (isSupplementalLoggingWarning w) with false
         | |- context [isRetentionRiskWarning ?w] =>
             change (isRetentionRiskWarning w) with false
         end.

(** Rewrites [existsb kind ws], for the list [ws] that the engine builds,
    into the test that pushes the warning of that kind. *)
Ltac count_warnings :=
  rewrite ?existsb_if_push, ?existsb_supplementalLogging_check,
          ?existsb_if_push, ?existsb_push;
  autorewrite with warnings; other_kinds;
  cbn [existsb];
  rewrite ?andb_false_r, ?andb_true_r, ?orb_false_r, ?orb_false_l.

(** Reduces a property of every warning of the list that the engine builds
    to the property of each warning that may be pushed. *)
Ltac each_warning :=
  repeat first [ apply Forall_if_push
               | apply Forall_supplementalLogging_check
               | apply Forall_push; split
               | apply Forall_nil ].

(** The retention-risk warning cites the observed minimum window, printed
    with one decimal, and the recommended hours, each followed by h. *)
Lemma retentionRiskWarning_cites (minWindow hours : number) :
  includes (toFixed minWindow 1 ++ "h") (retentionRiskWarning minWindow hours)
  = true /\
  includes (numberToString hours ++ "h") (retentionRiskWarning minWindow hours)
  = true.
Proof.
  unfold retentionRiskWarning. split.
  - match goal with
    | |- includes ?sub (?pre ++ ?a ++ "h " ++ ?post) = true =>
        change (includes sub (pre ++ a ++ "h" ++ " " ++ post) = true);
        rewrite <- (append_assoc a "h")
    end.
    apply includes_app.
  - match goal with
    | |- includes ?sub (?p1 ++ ?a ++ ?p2 ++ ?p3 ++ ?b ++ "h. " ++ ?post) = true =>
        change (includes sub
                  (p1 ++ a ++ (p2 ++ p3) ++ b ++ "h" ++ ". " ++ post) = true);
        rewrite <- (append_assoc b "h")
    end.
    apply includes_app_after.
Qed.

(** *** The claims *)



(** C2. Whatever the snapshot, the recommendations that the engine returns
    have a retention of at least 2 hours and a transaction retention of at
    least 300000 ms. *)
Theorem retention_floors (r : DiagReport) (rec : Recommendations) :
  computeRecommendations r = Normal rec ->
  2 <= archiveRetentionHours rec /\ 300000 <= transactionRetentionMs rec.
Proof.
  intros H. run_engine H; cbn [archiveRetentionHours transactionRetentionMs];
    (split;
     [ apply (ceil_lower_bound 2);
       apply Qle_shift_div_l; [reflexivity | apply max3_lower_bound]
     | apply Q.le_max_r ]).
Qed.

(** C3, at its failing input. On the snapshot whose redo-log fact is absent
    the engine does not return: reading [r.redoLogConfig.length] throws a
    TypeError. *)
Theorem computeRecommendations_throws_without_redoLogConfig :
  computeRecommendations snapshotWithoutRedoLogConfig =
  Throw (TypeError "Cannot read properties of null (reading 'length')").
Proof. reflexivity. Qed.

(** C4, as amended. With a switch-rate p95 of at most 6 per hour the redo
    log size that the engine returns is the configured per-group size (4 GB
    when there is no row) rounded to one decimal place; otherwise it is
    ceil(peak archive GB per hour / 4) with a floor of 2 GB, the peak being
    the p95 of the archive generation rate or its maximum when the p95 is
    zero.  The group count is max(current group count, 4), the current
    count being 0 when there is no row. *)
Theorem redoLog_sizing (r : DiagReport) (rec : Recommendations) :
  computeRecommendations r = Normal rec ->
  exists rows,
    redoLogConfig r = Some rows /\
    let p := MetricStats.p95 (switchesPerHour r) in
    (p <= 6 ->
     redoLogSizeGb rec = roundedToOneDecimal (configuredRedoSizeGb rows) /\
     configuredRedoSizeGb rows - (1 # 20) < redoLogSizeGb rec /\
     redoLogSizeGb rec <= configuredRedoSizeGb rows + (1 # 20)) /\
    (p <= 6 -> rows = [] -> redoLogSizeGb rec == 4) /\
    (6 < p ->
     redoLogSizeGb rec == Math.max (Math.ceil (peakArchiveGbPerHour r / 4)) 2) /\
    redoLogGroups rec = Math.max (lengthOf rows) 4 /\
    (rows = [] -> redoLogGroups rec == 4).
Proof.
  intros H.
  assert (Hint : forall x : number,
             Math.round (Math.max (Math.ceil x) 2 * 10) / 10
             == Math.max (Math.ceil x) 2).
  { intros x. unfold Math.ceil. change 2 with (inject_Z 2).
    rewrite max_integer. apply roundedToOneDecimal_integer. }
  run_engine H; exists rows; (split; [reflexivity|]);
    cbn [redoLogSizeGb redoLogGroups];
    (split; [intros Hp; apply gtb_false_iff in Hp; rewrite Hp;
             split; [reflexivity | apply roundedToOneDecimal_nearest]|]);
    repeat split.
  all: try (intros Hp ->; apply gtb_false_iff in Hp; rewrite Hp; reflexivity).
  all: try (intros Hp; apply gtb_true_iff in Hp; rewrite Hp; apply Hint).
  all: intros ->; reflexivity.
Qed.

(** The transaction retention as line 262 computes it. *)
Lemma transactionRetentionMs_eq (r : DiagReport) (rec : Recommendations) :
  computeRecommendations r = Normal rec ->
  transactionRetentionMs rec =
  Math.max
    (Double.mul
       (Double.mul (Double.mul (MetricStats.p95 (oldestTxnMinutes r)) 2) 60)
       1000)
    300000.
Proof. intros H. run_engine H; reflexivity. Qed.

(** C5, as amended. The transaction retention is max(product, 300000) ms,
    where the product is p95 of the oldest transaction x 2 x 60 x 1000 as
    the language computes it, in double precision: it is that product
    itself, however large, as soon as the product reaches 300000.  It is
    within a relative error of 2^-49 of max(p95 x 2 x 60000, 300000), and
    equal to it for a p95 that is a whole number of minutes below 2^36:
    5400000 for a p95 of 45 minutes. *)
Theorem transactionRetentionMs_formula (r : DiagReport) (rec : Recommendations) :
  computeRecommendations r = Normal rec ->
  let p := MetricStats.p95 (oldestTxnMinutes r) in
  let product := Double.mul (Double.mul (Double.mul p 2) 60) 1000 in
  transactionRetentionMs rec = Math.max product 300000 /\
  (300000 <= product -> transactionRetentionMs rec == product) /\
  Qabs (transactionRetentionMs rec - Math.max (p * 2 * 60000) 300000)
  <= (1 # 2 ^ 49) * Math.max (p * 2 * 60000) 300000 /\
  (forall n : Z, p == inject_Z n -> (Z.abs n < 2 ^ 36)%Z ->
     transactionRetentionMs rec == Math.max (p * 2 * 60000) 300000) /\
  (p == 45 -> transactionRetentionMs rec == 5400000).
Proof.
  intros H p product. subst p product.
  rewrite (transactionRetentionMs_eq r rec H).
  set (p := MetricStats.p95 (oldestTxnMinutes r)).
  assert (Hwhole : forall n : Z, p == inject_Z n -> (Z.abs n < 2 ^ 36)%Z ->
            Math.max (Double.mul (Double.mul (Double.mul p 2) 60) 1000) 300000
            == Math.max (p * 2 * 60000) 300000).
  { intros n Hn Hb. unfold Math.max.
    rewrite (doubledInMs_compat p (inject_Z n) Hn).
    rewrite (doubledInMs_integer n Hb), Hn. reflexivity. }
  split; [reflexivity | split; [|split; [|split]]].
  - intros Hle. unfold Math.max. now apply Q.max_l.
  - apply retentionMs_error.
  - exact Hwhole.
  - intros H45. rewrite (Hwhole 45%Z H45) by reflexivity.
    rewrite H45. reflexivity.
Qed.

(** C6. The engine always returns [lobEnabled = false]; a LOB warning is in
    the list of warnings exactly when at least one LOB column was found;
    when none was found the rationale is the no-LOB-columns text. *)
Theorem lob_policy (r : DiagReport) (rec : Recommendations) :
  computeRecommendations r = Normal rec ->
  lobEnabled rec = false /\
  existsb isLobWarning (warnings rec) = lobColumnFound r /\
  (lobColumnFound r = false -> lobReason rec = noLobReason).
Proof.
  intros H. unfold lobColumnFound.
  run_engine H; cbn [lobEnabled lobReason warnings];
    try rewrite gtb_lengthOf in Hlobs; rewrite ?Hcols;
    (split; [reflexivity|]).
  - destruct cols as [|c cs]; [discriminate|].
    split; [|discriminate]. count_warnings. reflexivity.
  - destruct cols as [|c cs]; [|discriminate].
    split; [|reflexivity]. count_warnings. reflexivity.
  - split; [|reflexivity]. count_warnings. reflexivity.
Qed.

(** The batch sizes and the filter mode by the test of the code: the capture
    ratio is capturedTableCount / schemaTableCount when schemaTableCount is
    greater than 0, and 1 otherwise. *)
Lemma batch_and_filter_by_guard (r : DiagReport) (rec : Recommendations) :
  computeRecommendations r = Normal rec ->
  exists captureRatio : number,
    (0 < schemaTableCount r ->
     captureRatio = capturedTableCount r / schemaTableCount r) /\
    (schemaTableCount r <= 0 -> captureRatio = 1) /\
    (captureRatio < 3 # 10 ->
     batchSizeDefault rec = 5000 /\ batchSizeMax rec = 10000) /\
    (3 # 10 <= captureRatio ->
     batchSizeDefault rec = 10000 /\ batchSizeMax rec = 50000) /\
    (captureRatio < 1 # 2 -> queryFilterMode rec = "regex") /\
    (1 # 2 <= captureRatio -> queryFilterMode rec = "none") /\
    (existsb isQueryFilterWarning (warnings rec) = true <->
     queryFilterMode rec = "regex").
Proof.
  intros H.
  exists (if gtb (schemaTableCount r) 0
          then capturedTableCount r / schemaTableCount r else 1).
  split; [intros Hs; apply gtb_true_iff in Hs; now rewrite Hs|].
  split; [intros Hs; apply gtb_false_iff in Hs; now rewrite Hs|].
  run_engine H;
    cbn [batchSizeDefault batchSizeMax queryFilterMode warnings];
    set (ratio := if gtb (schemaTableCount r) 0
                  then capturedTableCount r / schemaTableCount r else 1);
    clearbody ratio;
    (repeat split; [ .. | count_warnings; apply String.eqb_eq
                        | count_warnings; apply String.eqb_eq ]);
    destruct (ltb ratio (3 # 10)) eqn:H3;
    destruct (ltb ratio (1 # 2)) eqn:H5;
    first [apply ltb_true_iff in H3 | apply ltb_false_iff in H3];
    first [apply ltb_true_iff in H5 | apply ltb_false_iff in H5];
    intros; try reflexivity; order_contradiction.
Qed.

(** C7. The capture ratio is capturedTableCount / schemaTableCount, and 1
    when schemaTableCount is 0.  Below 0.3 the batch sizes are 5000 and
    10000, otherwise 10000 and 50000; the query filter mode is regex below
    0.5 and none otherwise; and a query-filter warning is in the list
    exactly when the mode is regex.  The schema table count counts tables:
    it is not negative. *)
Theorem batch_and_filter_policy (r : DiagReport) (rec : Recommendations) :
  computeRecommendations r = Normal rec ->
  0 <= schemaTableCount r ->
  let captureRatio := statedCaptureRatio r in
  (captureRatio < 3 # 10 ->
   batchSizeDefault rec = 5000 /\ batchSizeMax rec = 10000) /\
  (3 # 10 <= captureRatio ->
   batchSizeDefault rec = 10000 /\ batchSizeMax rec = 50000) /\
  (captureRatio < 1 # 2 -> queryFilterMode rec = "regex") /\
  (1 # 2 <= captureRatio -> queryFilterMode rec = "none") /\
  (existsb isQueryFilterWarning (warnings rec) = true <->
   queryFilterMode rec = "regex").
Proof.
  intros H Hs captureRatio. subst captureRatio.
  destruct (batch_and_filter_by_guard r rec H) as [ratio [Hpos [Hzero Hpolicy]]].
  assert (E : statedCaptureRatio r = ratio).
  { unfold statedCaptureRatio.
    destruct (Qeq_bool (schemaTableCount r) 0) eqn:E.
    - apply Qeq_bool_iff in E. symmetry. apply Hzero. rewrite E. apply Qle_refl.
    - apply Qeq_bool_neq in E. symmetry. apply Hpos.
      apply Qle_lteq in Hs. destruct Hs as [Hs|Hs]; [exact Hs|].
      exfalso. apply E. now symmetry. }
  rewrite E. exact Hpolicy.
Qed.

(** C8. A retention-risk warning is in the list of warnings exactly when
    the archive-window statistic has at least one sample and its minimum is
    below the retention hours that are returned; and that warning cites both
    the observed minimum window and the recommended hours. *)
Theorem retention_risk_warning (r : DiagReport) (rec : Recommendations) :
  computeRecommendations r = Normal rec ->
  let window := archiveWindowHours r in
  (existsb isRetentionRiskWarning (warnings rec) = true <->
   0 < MetricStats.samples window /\
   MetricStats.min window < archiveRetentionHours rec) /\
  (forall w, In w (warnings rec) -> isRetentionRiskWarning w = true ->
     includes (toFixed (MetricStats.min window) 1 ++ "h") w = true /\
     includes (numberToString (archiveRetentionHours rec) ++ "h") w = true).
Proof.
  intros H window. subst window.
  run_engine H; cbn [warnings archiveRetentionHours]; split.
  all: try (count_warnings; apply risk_condition_iff).
  all: match goal with
       | |- forall w, In w ?ws -> @?P w => apply (proj1 (Forall_forall P ws))
       end;
    each_warning;
    first [ intros _; apply retentionRiskWarning_cites
          | intros Hk; lazy in Hk; discriminate Hk ].
Qed.

(** C9, as amended. The disk estimate that the engine returns is the product
    of the archive-generation-rate p95 and the retention hours, as the
    language computes it in double precision, rounded to the nearest
    integer: a whole number that differs from the exact product by a half
    at most, up to a relative rounding error of 2^-51. *)
Theorem archiveRetentionDiskGb_formula (r : DiagReport) (rec : Recommendations) :
  computeRecommendations r = Normal rec ->
  let p := MetricStats.p95 (archiveGbPerHour r) in
  let hours := archiveRetentionHours rec in
  archiveRetentionDiskGb rec = Math.round (Double.mul p hours) /\
  (exists n : Z, archiveRetentionDiskGb rec = inject_Z n) /\
  Qabs (archiveRetentionDiskGb rec - p * hours)
  <= (1 # 2) + (1 # 2 ^ 51) * Qabs (p * hours).
Proof.
  intros H p hours. subst p hours.
  assert (Heq : archiveRetentionDiskGb rec =
                Math.round (Double.mul (MetricStats.p95 (archiveGbPerHour r))
                                       (archiveRetentionHours rec))).
  { run_engine H; reflexivity. }
  rewrite Heq. split; [reflexivity | split].
  - eexists. reflexivity.
  - set (p := MetricStats.p95 (archiveGbPerHour r)).
    set (hours := archiveRetentionHours rec).
    destruct (round_nearest (Double.mul p hours)) as [Hlo Hhi].
    pose proof (mul_error p hours) as E.
    apply Qabs_Qle_condition in E. apply Qabs_Qle_condition.
    change (1 # 2 ^ 51) with (1 # 2251799813685248) in *.
    set (product := Double.mul p hours) in *.
    set (size := Qabs (p * hours)) in *.
    set (exact := p * hours) in *.
    clearbody product size exact. lra.
Qed.

(** C10. A supplemental-logging warning is in the list of warnings exactly
    when the supplemental-logging fact is a non-empty array whose first
    element has a SUPPLEMENTAL_LOG_DATA_MIN other than the string YES; a
    fact that is not an array, such as the bare string NO, gives no such
    warning. *)
Theorem supplemental_logging_warning (r : DiagReport) (rec : Recommendations) :
  computeRecommendations r = Normal rec ->
  existsb isSupplementalLoggingWarning (warnings rec)
  = minimalLoggingNotEnabled (supplementalLogging r) /\
  (isArray (supplementalLogging r) = false ->
   existsb isSupplementalLoggingWarning (warnings rec) = false).
Proof.
  intros H.
  assert (Heq : existsb isSupplementalLoggingWarning (warnings rec)
                = minimalLoggingNotEnabled (supplementalLogging r)).
  { run_engine H; cbn [warnings]; count_warnings; reflexivity. }
  split; [exact Heq|].
  rewrite Heq. destruct (supplementalLogging r); try reflexivity.
  discriminate.
Qed.

(** *** More on the engine *)

(** The retention hours are a whole number, 2 at least. *)
Lemma retention_floors_aux (r : DiagReport) (rec : Recommendations) :
  computeRecommendations r = Normal rec ->
  exists n : Z, archiveRetentionHours rec = inject_Z n /\ (2 <= n)%Z.
Proof.
  intros H. run_engine H; cbn [archiveRetentionHours]; unfold Math.ceil;
    (eexists; split; [reflexivity|]);
    rewrite <- (Qceiling_Z 2); apply Qceiling_resp_le;
    (apply Qle_shift_div_l; [reflexivity | apply max3_lower_bound]).
Qed.

(** X2. The group count that the engine returns is a whole number, at
    least 4 and at least the current count of redo-log groups. *)
Theorem redoLogGroups_floor (r : DiagReport) (rec : Recommendations) :
  computeRecommendations r = Normal rec ->
  exists rows,
    redoLogConfig r = Some rows /\
    4 <= redoLogGroups rec /\
    lengthOf rows <= redoLogGroups rec /\
    redoLogGroups rec = inject_Z (Z.max (Z.of_nat (List.length rows)) 4).
Proof.
  intros H.
  run_engine H; exists rows; (split; [reflexivity|]); cbn [redoLogGroups];
    (split; [apply Q.le_max_r | split; [apply Q.le_max_l | apply max_integer]]).
Qed.

(** X3. The default batch size is below the maximum batch size, and the
    small batch sizes only come with the regex filter mode: a default of
    5000 implies the mode regex, the mode none implies 10000 and 50000. *)
Theorem batch_sizes_consistent (r : DiagReport) (rec : Recommendations) :
  computeRecommendations r = Normal rec ->
  batchSizeDefault rec < batchSizeMax rec /\
  (batchSizeDefault rec == 5000 -> queryFilterMode rec = "regex") /\
  (queryFilterMode rec = "none" ->
   batchSizeDefault rec = 10000 /\ batchSizeMax rec = 50000).
Proof.
  intros H.
  run_engine H; cbn [batchSizeDefault batchSizeMax queryFilterMode];
    set (ratio := if gtb (schemaTableCount r) 0
                  then capturedTableCount r / schemaTableCount r else 1);
    clearbody ratio;
    destruct (ltb ratio (3 # 10)) eqn:H3;
    destruct (ltb ratio (1 # 2)) eqn:H5;
    first [apply ltb_true_iff in H3 | apply ltb_false_iff in H3];
    first [apply ltb_true_iff in H5 | apply ltb_false_iff in H5];
    (repeat split; try reflexivity; try discriminate; intros;
     try discriminate; exfalso; lra).
Qed.

(** X4. The retention hours are a whole number, and the heartbeat interval
    is 10000 ms exactly when they are 2, the floor, and 30000 ms exactly
    when they are 3 or more. *)
Theorem heartbeat_policy (r : DiagReport) (rec : Recommendations) :
  computeRecommendations r = Normal rec ->
  (exists n : Z, archiveRetentionHours rec = inject_Z n /\ (2 <= n)%Z) /\
  (archiveRetentionHours rec == 2 -> heartbeatIntervalMs rec = 10000) /\
  (3 <= archiveRetentionHours rec -> heartbeatIntervalMs rec = 30000) /\
  (archiveRetentionHours rec == 2 \/ 3 <= archiveRetentionHours rec).
Proof.
  intros H.
  destruct (retention_floors_aux r rec H) as [n [Hn Hge]].
  assert (Hhb : heartbeatIntervalMs rec
                = if leb (archiveRetentionHours rec) 2 then 10000 else 30000).
  { run_engine H; reflexivity. }
  rewrite Hhb, Hn. unfold leb.
  split; [exists n; split; [reflexivity | assumption]|].
  change 2 with (inject_Z 2). change 3 with (inject_Z 3).
  rewrite inject_Z_injective, <- Zle_Qle.
  destruct (Qle_bool (inject_Z n) (inject_Z 2)) eqn:E.
  - apply Qle_bool_iff in E. rewrite <- Zle_Qle in E.
    repeat split; intros; try reflexivity; lia.
  - assert (Hgt : ~ (n <= 2)%Z).
    { intros Hle. rewrite Zle_Qle in Hle. apply Qle_bool_iff in Hle. congruence. }
    repeat split; intros; try reflexivity; lia.
Qed.

(** Strings inside longer strings. *)
Lemma prefix_append (p s t : string) :
  String.prefix p s = true -> String.prefix p (s ++ t) = true.
Proof.
  revert s. induction p as [|c p IH]; intros s H.
  - now destruct (s ++ t).
  - destruct s as [|d s]; [discriminate|]. cbn in *.
    destruct (ascii_dec c d); [now apply IH | discriminate].
Qed.

Lemma includes_append_l (sub a b : string) :
  includes sub a = true -> includes sub (a ++ b) = true.
Proof.
  induction a as [|c a IH]; intros H.
  - cbn [includes] in H. rewrite orb_false_r in H.
    apply includes_prefix. now apply (prefix_append sub "" b).
  - cbn [includes] in H. apply orb_true_iff in H. destruct H as [H|H].
    + apply includes_prefix. now apply (prefix_append sub (String c a) b).
    + cbn [append includes]. rewrite (IH H). apply orb_true_r.
Qed.

Lemma includes_append_r (sub a b : string) :
  includes sub b = true -> includes sub (a ++ b) = true.
Proof.
  intros H. induction a as [|c a IH]; [exact H|].
  cbn [append includes]. rewrite IH. apply orb_true_r.
Qed.

Lemma includes_refl (s : string) : includes s s = true.
Proof.
  apply includes_prefix. induction s as [|c s IH]; [reflexivity|].
  cbn. destruct (ascii_dec c c); [exact IH | congruence].
Qed.

(** A part of a joined string is inside it. *)
Lemma includes_join (sep s : string) (parts : list string) :
  In s parts -> includes s (join sep parts) = true.
Proof.
  induction parts as [|p rest IH]; [intros []|].
  intros [-> | Hin].
  - destruct rest; [apply includes_refl|].
    cbn [join]. apply includes_append_l, includes_refl.
  - destruct rest as [|q rest]; [destruct Hin|].
    change (join sep (p :: q :: rest)) with (p ++ sep ++ join sep (q :: rest)).
    apply includes_append_r, includes_append_r, IH, Hin.
Qed.

(** The engine's list of warnings keeps the warnings it has. *)
Lemma In_push_l {A : Type} (xs : list A) (x y : A) : In y xs -> In y (push xs x).
Proof. intros H. unfold push. apply in_or_app. now left. Qed.

Lemma In_push_r {A : Type} (xs : list A) (x : A) : In x (push xs x).
Proof. unfold push. apply in_or_app. right. now left. Qed.

Lemma In_if_push {A : Type} (c : bool) (xs : list A) (x y : A) :
  In y xs -> In y (if c then push xs x else xs).
Proof. intros H. destruct c; [now apply In_push_l | exact H]. Qed.

Lemma In_supplementalLogging_check (suppLog : Json) (ws : list string) (y : string) :
  In y ws ->
  In y
    match (if truthy suppLog then asArray suppLog else None) with
    | Some elems =>
        if gtb (lengthOf elems) 0 then
          if strictNeqString
               (optChain (List.head elems) "SUPPLEMENTAL_LOG_DATA_MIN") "YES"
          then push ws supplementalLoggingWarning
          else ws
        else ws
    | None => ws
    end.
Proof.
  intros H.
  destruct (if truthy suppLog then asArray suppLog else None) as [elems|];
    [|exact H].
  destruct (gtb (lengthOf elems) 0); [|exact H].
  now apply In_if_push.
Qed.

(** Finds a warning that was pushed, in the list that the engine builds. *)
Ltac find_warning :=
  repeat first [ apply In_push_r
               | apply In_if_push
               | apply In_supplementalLogging_check
               | apply In_push_l ].

(** X5. An archive-lag warning is in the list exactly when the archive lag
    target is 0 and the minimum switch rate is below 2 per hour; it cites
    that minimum rate and the setting archive_lag_target=1800. *)
Theorem archive_lag_warning (r : DiagReport) (rec : Recommendations) :
  computeRecommendations r = Normal rec ->
  (existsb isArchiveLagWarning (warnings rec) = true <->
   archiveLagTarget r == 0 /\ MetricStats.min (switchesPerHour r) < 2) /\
  (forall w, In w (warnings rec) -> isArchiveLagWarning w = true ->
     includes (numberToString (MetricStats.min (switchesPerHour r)) ++ "/hour") w
     = true /\
     includes "archive_lag_target=1800" w = true).
Proof.
  intros H.
  assert (Hcond : forall t m : number,
             strictEq t 0 && ltb m 2 = true <-> t == 0 /\ m < 2).
  { intros t m. unfold strictEq.
    rewrite andb_true_iff, Qeq_bool_iff, ltb_true_iff. reflexivity. }
  assert (Hcites : forall m : number,
             includes (numberToString m ++ "/hour") (archiveLagWarning m) = true /\
             includes "archive_lag_target=1800" (archiveLagWarning m) = true).
  { intros m. unfold archiveLagWarning. split.
    - match goal with
      | |- includes ?sub (?pre ++ ?a ++ "/hour. " ++ ?post) = true =>
          change (includes sub (pre ++ a ++ "/hour" ++ ". " ++ post) = true);
          rewrite <- (append_assoc a "/hour")
      end.
      apply includes_app.
    - apply includes_append_r, includes_append_r. vm_compute. reflexivity. }
  run_engine H; cbn [warnings]; split.
  all: try (count_warnings; apply Hcond).
  all: match goal with
       | |- forall w, In w ?ws -> @?P w => apply (proj1 (Forall_forall P ws))
       end;
    each_warning;
    first [ intros _; apply Hcites
          | intros Hk; lazy in Hk; discriminate Hk ].
Qed.

(** Each warning has its rank. *)
Lemma warningRank_lobWarning (cols : list LobColumn) (m : string) :
  warningRank (lobWarning cols m) = 1%nat.
Proof. unfold warningRank. now rewrite isLobWarning_lobWarning. Qed.

Lemma warningRank_queryFilterWarning (ratio : number) :
  warningRank (queryFilterWarning ratio) = 2%nat.
Proof.
  unfold warningRank. autorewrite with warnings. other_kinds. reflexivity.
Qed.

Lemma warningRank_archiveLagWarning (x : number) :
  warningRank (archiveLagWarning x) = 3%nat.
Proof.
  unfold warningRank. autorewrite with warnings. other_kinds. reflexivity.
Qed.

Lemma warningRank_supplementalLoggingWarning :
  warningRank supplementalLoggingWarning = 4%nat.
Proof. reflexivity. Qed.

Lemma warningRank_retentionRiskWarning (w h : number) :
  warningRank (retentionRiskWarning w h) = 5%nat.
Proof.
  unfold warningRank. autorewrite with warnings. other_kinds. reflexivity.
Qed.

Lemma StronglySorted_snoc (l : list nat) (x : nat) :
  StronglySorted lt l -> Forall (fun y => (y < x)%nat) l ->
  StronglySorted lt (l ++ [x]).
Proof.
  induction 1 as [|y l Hl IH Hy]; intros Hx; cbn.
  - repeat constructor.
  - inversion Hx; subst. constructor; [now apply IH|].
    apply Forall_app. split; [assumption | now constructor].
Qed.

Lemma StronglySorted_length (a b : nat) (l : list nat) :
  StronglySorted lt l -> Forall (fun y => (a <= y < b)%nat) l ->
  (List.length l <= b - a)%nat.
Proof.
  intros Hs. revert a. induction Hs as [|y l Hl IH Hy]; intros a Hb; cbn.
  - lia.
  - inversion Hb as [|? ? Hyb Hlb]; subst.
    assert (Hl' : Forall (fun z => (S y <= z < b)%nat) l).
    { rewrite Forall_forall in *. intros z Hz.
      specialize (Hy z Hz). specialize (Hlb z Hz). lia. }
    specialize (IH (S y) Hl'). lia.
Qed.

Lemma orderedBelow_nil : orderedBelow 1 [].
Proof. split; constructor. Qed.

Lemma orderedBelow_weaken (k k' : nat) (ws : list string) :
  (k <= k')%nat -> orderedBelow k ws -> orderedBelow k' ws.
Proof.
  intros Hk [Hs Hb]. split; [assumption|].
  eapply Forall_impl; [|exact Hb]. cbn. intros w Hw. lia.
Qed.

Lemma orderedBelow_push (k n : nat) (ws : list string) (w : string) :
  warningRank w = n -> (1 <= k <= n)%nat ->
  orderedBelow k ws -> orderedBelow (S n) (push ws w).
Proof.
  intros Hw Hk [Hs Hb]. unfold push. split.
  - rewrite map_app. cbn [map]. apply StronglySorted_snoc; [assumption|].
    apply Forall_map. eapply Forall_impl; [|exact Hb]. cbn. intros x Hx. lia.
  - apply Forall_app. split.
    + eapply Forall_impl; [|exact Hb]. cbn. intros x Hx. lia.
    + constructor; [lia | constructor].
Qed.

Lemma orderedBelow_if_push (k n : nat) (c : bool) (ws : list string) (w : string) :
  warningRank w = n -> (1 <= k <= n)%nat ->
  orderedBelow k ws -> orderedBelow (S n) (if c then push ws w else ws).
Proof.
  intros Hw Hk H. destruct c.
  - now apply (orderedBelow_push k).
  - apply (orderedBelow_weaken k); [lia | assumption].
Qed.

Lemma orderedBelow_supplementalLogging_check
  (k : nat) (suppLog : Json) (ws : list string) :
  (1 <= k <= 4)%nat -> orderedBelow k ws ->
  orderedBelow 5
    match (if truthy suppLog then asArray suppLog else None) with
    | Some elems =>
        if gtb (lengthOf elems) 0 then
          if strictNeqString
               (optChain (List.head elems) "SUPPLEMENTAL_LOG_DATA_MIN") "YES"
          then push ws supplementalLoggingWarning
          else ws
        else ws
    | None => ws
    end.
Proof.
  intros Hk H.
  assert (Hw : orderedBelow 5 ws) by (apply (orderedBelow_weaken k); [lia | assumption]).
  destruct (if truthy suppLog then asArray suppLog else None) as [elems|];
    [|exact Hw].
  destruct (gtb (lengthOf elems) 0); [|exact Hw].
  now apply (orderedBelow_if_push k 4).
Qed.

(** X6. The warnings come in the order of evaluation, each kind once at
    most: LOB, query filter, archive lag, supplemental logging, retention
    risk.  Every string of the list is one of these five warnings, so the
    list has five entries at most. *)
Theorem warnings_in_order (r : DiagReport) (rec : Recommendations) :
  computeRecommendations r = Normal rec ->
  StronglySorted lt (map warningRank (warnings rec)) /\
  Forall (fun w => (1 <= warningRank w <= 5)%nat) (warnings rec) /\
  (List.length (warnings rec) <= 5)%nat.
Proof.
  intros H.
  assert (Hord : orderedBelow 6 (warnings rec)).
  { run_engine H; cbn [warnings];
      (apply (orderedBelow_if_push 5 5);
       [ apply warningRank_retentionRiskWarning | lia | ]);
      (apply (orderedBelow_supplementalLogging_check 4); [lia|]);
      (apply (orderedBelow_if_push 3 3);
       [ apply warningRank_archiveLagWarning | lia | ]);
      (apply (orderedBelow_if_push 2 2);
       [ apply warningRank_queryFilterWarning | lia | ]).
    - apply (orderedBelow_push 1 1);
        [apply warningRank_lobWarning | lia | apply orderedBelow_nil].
    - apply (orderedBelow_weaken 1); [lia | apply orderedBelow_nil].
    - apply (orderedBelow_weaken 1); [lia | apply orderedBelow_nil]. }
  destruct Hord as [Hs Hb]. split; [exact Hs | split].
  - eapply Forall_impl; [|exact Hb]. cbn. intros w Hw. lia.
  - rewrite <- (length_map warningRank).
    apply (StronglySorted_length 1 6 _ Hs). now apply Forall_map.
Qed.

(** X7. When LOB columns were found, the list of warnings has the LOB
    warning, and that warning names every column as TABLE.COLUMN. *)
Theorem lobWarning_names_every_column
  (r : DiagReport) (rec : Recommendations) (cols : list LobColumn) :
  computeRecommendations r = Normal rec ->
  lobColumns r = Some cols -> cols <> [] ->
  exists w,
    In w (warnings rec) /\
    isLobWarning w = true /\
    forall c, In c cols ->
      includes (TABLE_NAME c ++ "." ++ COLUMN_NAME c) w = true.
Proof.
  intros H Hc Hne.
  exists (lobWarning cols (maxStringSize r)).
  split; [|split].
  - run_engine H; cbn [warnings];
      try discriminate Hc; injection Hc as ->.
    + find_warning.
    + rewrite gtb_lengthOf in Hlobs. destruct cols; [congruence | discriminate].
  - apply isLobWarning_lobWarning.
  - intros c Hin. unfold lobWarning.
    apply includes_append_r, includes_append_l, includes_join.
    apply (in_map (fun c => TABLE_NAME c ++ "." ++ COLUMN_NAME c)), Hin.
Qed.

(** The rationale for LOB columns cites their number and the hours. *)
Lemma lobFoundReason_cites (cols : list LobColumn) (hours : number) :
  startsWith (numberToString (lengthOf cols) ++ " LOB column(s) found")
             (lobFoundReason cols hours) = true /\
  includes ("retention is >= " ++ numberToString (hours + 1) ++ "h.")
           (lobFoundReason cols hours) = true.
Proof.
  unfold lobFoundReason, startsWith. split.
  - match goal with
    | |- String.prefix (?n ++ ?lit) (?n ++ " LOB column(s) found in captured tables. " ++ ?rest) = true =>
        change (String.prefix (n ++ lit)
                  (n ++ lit ++ " in captured tables. " ++ rest) = true)
    end.
    rewrite <- append_assoc. apply prefix_app.
  - apply includes_append_r.
    match goal with
    | |- includes (?a ++ ?n ++ ?h) (?l1 ++ ?l2 ++ ?l3 ++ ?n ++ ?h) = true =>
        change (includes (a ++ n ++ h)
                  ((l1 ++ l2 ++ "Enable only if LOB data capture is required AND ")
                   ++ (a ++ n ++ h)) = true)
    end.
    apply includes_append_r, includes_refl.
Qed.

(** X8. When LOB columns were found, the rationale opens with their number
    and asks for a retention of one hour more than the recommended one
    before LOB capture is enabled. *)
Theorem lobReason_when_found
  (r : DiagReport) (rec : Recommendations) (cols : list LobColumn) :
  computeRecommendations r = Normal rec ->
  lobColumns r = Some cols -> cols <> [] ->
  startsWith (numberToString (lengthOf cols) ++ " LOB column(s) found")
             (lobReason rec) = true /\
  includes ("retention is >= "
            ++ numberToString (archiveRetentionHours rec + 1) ++ "h.")
           (lobReason rec) = true.
Proof.
  intros H Hc Hne.
  run_engine H; cbn [lobReason archiveRetentionHours];
    try discriminate Hc; injection Hc as ->.
  - apply lobFoundReason_cites.
  - rewrite gtb_lengthOf in Hlobs. destruct cols; [congruence | discriminate].
Qed.

(** The fields of the record that the engine returns, as it computes them. *)
Lemma archiveRetentionHours_eq (r : DiagReport) (rec : Recommendations) :
  computeRecommendations r = Normal rec ->
  archiveRetentionHours rec =
  Math.ceil
    (Math.max3
       (MetricStats.p95 (oldestTxnMinutes r) + 60)
       ((if gtb (MetricStats.p95 (switchesPerHour r)) 0
         then 60 / MetricStats.p95 (switchesPerHour r) else 30) * 3
        + avgArchiveFileSizeGb r / (1 # 2) * 1 + 15 + 60)
       120 / 60).
Proof. intros H. run_engine H; reflexivity. Qed.

Lemma gtb_compat (x y z : number) : x == y -> gtb x z = gtb y z.
Proof.
  intros H. unfold gtb, ltb. now rewrite H.
Qed.

(** X9. The retention never shrinks when the oldest-transaction p95 or the
    average archive file size grows, the p95 switch rate being the same. *)
Theorem archiveRetentionHours_monotone
  (r1 r2 : DiagReport) (rec1 rec2 : Recommendations) :
  computeRecommendations r1 = Normal rec1 ->
  computeRecommendations r2 = Normal rec2 ->
  MetricStats.p95 (switchesPerHour r1) == MetricStats.p95 (switchesPerHour r2) ->
  MetricStats.p95 (oldestTxnMinutes r1) <= MetricStats.p95 (oldestTxnMinutes r2) ->
  avgArchiveFileSizeGb r1 <= avgArchiveFileSizeGb r2 ->
  archiveRetentionHours rec1 <= archiveRetentionHours rec2.
Proof.
  intros H1 H2 Hsw Hold Havg.
  rewrite (archiveRetentionHours_eq r1 rec1 H1), (archiveRetentionHours_eq r2 rec2 H2).
  unfold Math.ceil. rewrite <- Zle_Qle. apply Qceiling_resp_le.
  apply Qmult_le_compat_r; [|discriminate].
  unfold Math.max3. apply Q.max_le_compat; [|apply Qle_refl].
  apply Q.max_le_compat; [lra|].
  assert (Hw : avgArchiveFileSizeGb r1 / (1 # 2) <= avgArchiveFileSizeGb r2 / (1 # 2)).
  { apply Qmult_le_compat_r; [assumption | discriminate]. }
  set (w1 := avgArchiveFileSizeGb r1 / (1 # 2)) in *.
  set (w2 := avgArchiveFileSizeGb r2 / (1 # 2)) in *. clearbody w1 w2.
  rewrite (gtb_compat _ _ 0 Hsw).
  destruct (gtb (MetricStats.p95 (switchesPerHour r2)) 0).
  - rewrite Hsw.
    set (interval := 60 / MetricStats.p95 (switchesPerHour r2)).
    clearbody interval. lra.
  - lra.
Qed.

(** X10. The transaction retention stays within the archive retention as
    long as the oldest-transaction p95 is at most 60 minutes. *)
Theorem transactionRetention_within_archiveRetention
  (r : DiagReport) (rec : Recommendations) :
  computeRecommendations r = Normal rec ->
  MetricStats.p95 (oldestTxnMinutes r) <= 60 ->
  transactionRetentionMs rec <= archiveRetentionHours rec * 3600000.
Proof.
  intros H Hp.
  destruct (retention_floors_aux r rec H) as [n [Hn Hge]].
  rewrite (transactionRetentionMs_eq r rec H), Hn.
  rewrite Zle_Qle in Hge. change (inject_Z 2) with 2 in Hge.
  pose proof (doubledInMs_monotone _ 60 Hp) as Hm.
  assert (E : Double.mul (Double.mul (Double.mul 60 2) 60) 1000 == 7200000)
    by (vm_compute; reflexivity).
  unfold Math.max. apply Q.max_lub; lra.
Qed.

(** X25. The transaction retention never shrinks when the oldest-transaction
    p95 grows: the rounding of the three products keeps the order. *)
Theorem transactionRetentionMs_monotone
  (r1 r2 : DiagReport) (rec1 rec2 : Recommendations) :
  computeRecommendations r1 = Normal rec1 ->
  computeRecommendations r2 = Normal rec2 ->
  MetricStats.p95 (oldestTxnMinutes r1) <= MetricStats.p95 (oldestTxnMinutes r2) ->
  transactionRetentionMs rec1 <= transactionRetentionMs rec2.
Proof.
  intros H1 H2 Hp.
  rewrite (transactionRetentionMs_eq r1 rec1 H1), (transactionRetentionMs_eq r2 rec2 H2).
  unfold Math.max. apply Q.max_le_compat_r.
  now apply doubledInMs_monotone.
Qed.

(** The size that is recomputed is a whole number, which the rounding to
    one decimal leaves as it is. *)
Lemma round_resized (x : number) :
  Math.round (Math.max (Math.ceil x) 2 * 10) / 10
  == inject_Z (Z.max (Qceiling x) 2).
Proof.
  unfold Math.ceil. change 2 with (inject_Z 2) at 1.
  rewrite max_integer. apply roundedToOneDecimal_integer.
Qed.

(** X11. When the p95 switch rate exceeds 6 per hour, the size that is
    returned is a whole number of GB, 2 at least, and four logs of that
    size hold the peak hourly archive volume. *)
Theorem resized_redoLog_holds_peak (r : DiagReport) (rec : Recommendations) :
  computeRecommendations r = Normal rec ->
  6 < MetricStats.p95 (switchesPerHour r) ->
  (exists n : Z, redoLogSizeGb rec == inject_Z n) /\
  2 <= redoLogSizeGb rec /\
  peakArchiveGbPerHour r <= 4 * redoLogSizeGb rec.
Proof.
  intros H Hp. apply gtb_true_iff in Hp.
  assert (Heq : redoLogSizeGb rec
                == inject_Z (Z.max (Qceiling (peakArchiveGbPerHour r / 4)) 2)).
  { run_engine H; cbn [redoLogSizeGb]; rewrite Hp; apply round_resized. }
  split; [eexists; exact Heq|].
  rewrite Heq. split.
  - change 2 with (inject_Z 2). rewrite <- Zle_Qle. lia.
  - pose proof (Qle_ceiling (peakArchiveGbPerHour r / 4)) as Hc.
    assert (Hm : inject_Z (Qceiling (peakArchiveGbPerHour r / 4))
                 <= inject_Z (Z.max (Qceiling (peakArchiveGbPerHour r / 4)) 2)).
    { rewrite <- Zle_Qle. lia. }
    assert (Hd : 4 * (peakArchiveGbPerHour r / 4) == peakArchiveGbPerHour r)
      by (apply Qmult_div_r; discriminate).
    rewrite <- Hd at 1. lra.
Qed.

(** X12. A configured redo log size that rounds to zero is returned as 0:
    with a p95 switch rate of at most 6 per hour, redo logs smaller than
    0.05 GB (51.2 MB) give a recommended size of 0 GB. *)
Theorem small_redoLog_rounds_to_zero
  (r : DiagReport) (rec : Recommendations) (rows : list RedoLogRow) :
  computeRecommendations r = Normal rec ->
  redoLogConfig r = Some rows ->
  MetricStats.p95 (switchesPerHour r) <= 6 ->
  0 <= configuredRedoSizeGb rows -> configuredRedoSizeGb rows < 1 # 20 ->
  redoLogSizeGb rec == 0.
Proof.
  intros H Hr Hp H0 H1. apply gtb_false_iff in Hp.
  assert (Heq : redoLogSizeGb rec
                = inject_Z (Qfloor (configuredRedoSizeGb rows * 10 + (1 # 2))) / 10).
  { run_engine H; cbn [redoLogSizeGb]; rewrite Hp;
      injection Hr as ->; reflexivity. }
  rewrite Heq.
  assert (Hz : Qfloor (configuredRedoSizeGb rows * 10 + (1 # 2)) = 0%Z).
  { apply Z.le_antisymm.
    - apply Z.lt_succ_r. rewrite Zlt_Qlt.
      eapply Qle_lt_trans; [apply Qfloor_le|].
      change (inject_Z (Z.succ 0)) with 1. lra.
    - rewrite <- (Qfloor_Z 0). apply Qfloor_resp_le.
      change (inject_Z 0) with 0. lra. }
  rewrite Hz. reflexivity.
Qed.


(** The tests that push the warnings, for the composition with the
    renderers. *)
Lemma existsb_isArchiveLagWarning (r : DiagReport) (rec : Recommendations) :
  computeRecommendations r = Normal rec ->
  existsb isArchiveLagWarning (warnings rec)
  = strictEq (archiveLagTarget r) 0 && ltb (MetricStats.min (switchesPerHour r)) 2.
Proof. intros H. run_engine H; cbn [warnings]; count_warnings; reflexivity. Qed.

Lemma existsb_isRetentionRiskWarning (r : DiagReport) (rec : Recommendations) :
  computeRecommendations r = Normal rec ->
  existsb isRetentionRiskWarning (warnings rec)
  = gtb (MetricStats.samples (archiveWindowHours r)) 0
    && ltb (MetricStats.min (archiveWindowHours r)) (archiveRetentionHours rec).
Proof.
  intros H.
  run_engine H; cbn [warnings archiveRetentionHours]; count_warnings; reflexivity.
Qed.

Lemma existsb_isQueryFilterWarning (r : DiagReport) (rec : Recommendations) :
  computeRecommendations r = Normal rec ->
  existsb isQueryFilterWarning (warnings rec) = (queryFilterMode rec =? "regex") /\
  (queryFilterMode rec = "regex" \/ queryFilterMode rec = "none").
Proof.
  intros H.
  run_engine H; cbn [warnings queryFilterMode];
    (split; [count_warnings; reflexivity|]);
    match goal with |- context [if ?c then _ else _] => destruct c end; auto.
Qed.

Lemma engine_flags (r : DiagReport) (rec : Recommendations) :
  computeRecommendations r = Normal rec ->
  lobEnabled rec = false /\ archiveLogOnlyMode rec = false.
Proof. intros H. run_engine H; split; reflexivity. Qed.

End EngineProperties.

(** * The engine on the example snapshots *)

Lemma busySnapshot_recommendations :
  @computeRecommendations decimalFormat busySnapshot = Normal busyRecommendations.
Proof. vm_compute. reflexivity. Qed.


Lemma retention_floors_witness :
  2 <= archiveRetentionHours busyRecommendations /\
  300000 <= transactionRetentionMs busyRecommendations.
Proof.
  apply (@retention_floors decimalFormat busySnapshot busyRecommendations).
  vm_compute. reflexivity.
Defined.

(** C4, counterexample. Three redo groups of 200 MB and a switch-rate p95 of
    1 per hour: the configured size is 0.1953125 GB and the engine returns
    0.2 GB. *)
Lemma redoLogSizeGb_is_not_the_configured_size :
  @computeRecommendations decimalFormat busySnapshot = Normal busyRecommendations /\
  MetricStats.p95 (switchesPerHour busySnapshot) <= 6 /\
  redoLogConfig busySnapshot
  = Some [redoGroup200MB 1; redoGroup200MB 2; redoGroup200MB 3] /\
  configuredRedoSizeGb [redoGroup200MB 1; redoGroup200MB 2; redoGroup200MB 3]
  == 25 # 128 /\
  redoLogSizeGb busyRecommendations == 2 # 10 /\
  ~ redoLogSizeGb busyRecommendations
    == configuredRedoSizeGb [redoGroup200MB 1; redoGroup200MB 2; redoGroup200MB 3].
Proof.
  split; [exact busySnapshot_recommendations|].
  repeat split; vm_compute; congruence.
Qed.

Lemma redoLog_sizing_witness :
  exists rows,
    redoLogConfig busySnapshot = Some rows /\
    let p := MetricStats.p95 (switchesPerHour busySnapshot) in
    (p <= 6 ->
     redoLogSizeGb busyRecommendations
     = roundedToOneDecimal (configuredRedoSizeGb rows) /\
     configuredRedoSizeGb rows - (1 # 20) < redoLogSizeGb busyRecommendations /\
     redoLogSizeGb busyRecommendations <= configuredRedoSizeGb rows + (1 # 20)) /\
    (p <= 6 -> rows = [] -> redoLogSizeGb busyRecommendations == 4) /\
    (6 < p ->
     redoLogSizeGb busyRecommendations
     == Math.max (Math.ceil (peakArchiveGbPerHour busySnapshot / 4)) 2) /\
    redoLogGroups busyRecommendations = Math.max (lengthOf rows) 4 /\
    (rows = [] -> redoLogGroups busyRecommendations == 4).
Proof.
  apply (@redoLog_sizing decimalFormat busySnapshot busyRecommendations).
  vm_compute. reflexivity.
Defined.

(** C5, counterexample. An oldest-transaction p95 of 2.53 minutes: the
    three products of the language give 303599.99999999994 ms, the double
    below 303600, where max(2.53 x 2 x 60000, 300000) is 303600; the result
    is also below twice the double that stands for 2.53. *)
Lemma transactionRetentionMs_rounds_the_product :
  @computeRecommendations decimalFormat shortTransactionSnapshot
  = Normal shortTransactionRecommendations /\
  MetricStats.p95 (oldestTxnMinutes shortTransactionSnapshot) == 253 # 100 /\
  transactionRetentionMs shortTransactionRecommendations
  == 303600 - (1 # 2 ^ 34) /\
  ~ transactionRetentionMs shortTransactionRecommendations
    == Math.max ((253 # 100) * 2 * 60000) 300000 /\
  transactionRetentionMs shortTransactionRecommendations
  < Double.round (253 # 100) * 2 * 60000.
Proof.
  split; [vm_compute; reflexivity|].
  repeat split; vm_compute; congruence.
Qed.

Lemma transactionRetentionMs_formula_witness :
  let p := MetricStats.p95 (oldestTxnMinutes busySnapshot) in
  let product := Double.mul (Double.mul (Double.mul p 2) 60) 1000 in
  transactionRetentionMs busyRecommendations = Math.max product 300000 /\
  (300000 <= product -> transactionRetentionMs busyRecommendations == product) /\
  Qabs (transactionRetentionMs busyRecommendations
        - Math.max (p * 2 * 60000) 300000)
  <= (1 # 2 ^ 49) * Math.max (p * 2 * 60000) 300000 /\
  (forall n : Z, p == inject_Z n -> (Z.abs n < 2 ^ 36)%Z ->
     transactionRetentionMs busyRecommendations
     == Math.max (p * 2 * 60000) 300000) /\
  (p == 45 -> transactionRetentionMs busyRecommendations == 5400000).
Proof.
  apply (@transactionRetentionMs_formula decimalFormat busySnapshot busyRecommendations).
  vm_compute. reflexivity.
Defined.

Lemma lob_policy_witness :
  lobEnabled busyRecommendations = false /\
  existsb isLobWarning (warnings busyRecommendations) = lobColumnFound busySnapshot /\
  (lobColumnFound busySnapshot = false ->
   lobReason busyRecommendations = noLobReason).
Proof.
  apply (@lob_policy decimalFormat busySnapshot busyRecommendations).
  vm_compute. reflexivity.
Defined.

Lemma batch_and_filter_policy_witness :
  let captureRatio := statedCaptureRatio busySnapshot in
  (captureRatio < 3 # 10 ->
   batchSizeDefault busyRecommendations = 5000 /\
   batchSizeMax busyRecommendations = 10000) /\
  (3 # 10 <= captureRatio ->
   batchSizeDefault busyRecommendations = 10000 /\
   batchSizeMax busyRecommendations = 50000) /\
  (captureRatio < 1 # 2 -> queryFilterMode busyRecommendations = "regex") /\
  (1 # 2 <= captureRatio -> queryFilterMode busyRecommendations = "none") /\
  (existsb isQueryFilterWarning (warnings busyRecommendations) = true <->
   queryFilterMode busyRecommendations = "regex").
Proof.
  apply (@batch_and_filter_policy decimalFormat busySnapshot busyRecommendations).
  - vm_compute. reflexivity.
  - vm_compute. discriminate.
Defined.

Lemma retention_risk_warning_witness :
  let window := archiveWindowHours busySnapshot in
  (existsb isRetentionRiskWarning (warnings busyRecommendations) = true <->
   0 < MetricStats.samples window /\
   MetricStats.min window < archiveRetentionHours busyRecommendations) /\
  (forall w, In w (warnings busyRecommendations) ->
     isRetentionRiskWarning w = true ->
     includes (decimal_toFixed (MetricStats.min window) 1 ++ "h") w = true /\
     includes (decimal_toString (archiveRetentionHours busyRecommendations) ++ "h") w
     = true).
Proof.
  apply (@retention_risk_warning decimalFormat busySnapshot busyRecommendations).
  vm_compute. reflexivity.
Defined.

(** C9, counterexample. An archive-generation-rate p95 of 0.3 GB per hour
    and a retention of 5 hours: the product is 1.5 GB and the engine
    returns 2. *)
Lemma archiveRetentionDiskGb_is_not_the_exact_product :
  @computeRecommendations decimalFormat busySnapshot = Normal busyRecommendations /\
  MetricStats.p95 (archiveGbPerHour busySnapshot)
  * archiveRetentionHours busyRecommendations == 3 # 2 /\
  archiveRetentionDiskGb busyRecommendations == 2 /\
  ~ archiveRetentionDiskGb busyRecommendations
    == MetricStats.p95 (archiveGbPerHour busySnapshot)
       * archiveRetentionHours busyRecommendations.
Proof.
  split; [exact busySnapshot_recommendations|].
  repeat split; vm_compute; congruence.
Qed.

(** An archive-generation-rate p95 of 4.1 GB per hour and a retention of 15
    hours: the double that stands for 4.1 is below 4.1, the product comes
    out below 61.5, and the engine returns 61. *)
Lemma archiveRetentionDiskGb_formula_witness :
  let p := MetricStats.p95 (archiveGbPerHour slowBatchSnapshot) in
  let hours := archiveRetentionHours slowBatchRecommendations in
  archiveRetentionDiskGb slowBatchRecommendations
  = Math.round (Double.mul p hours) /\
  (exists n : Z, archiveRetentionDiskGb slowBatchRecommendations = inject_Z n) /\
  Qabs (archiveRetentionDiskGb slowBatchRecommendations - p * hours)
  <= (1 # 2) + (1 # 2 ^ 51) * Qabs (p * hours).
Proof.
  apply (@archiveRetentionDiskGb_formula decimalFormat
           slowBatchSnapshot slowBatchRecommendations).
  vm_compute. reflexivity.
Defined.

Example slowBatch_disk_estimate :
  MetricStats.p95 (archiveGbPerHour slowBatchSnapshot) == 41 # 10 /\
  archiveRetentionHours slowBatchRecommendations == 15 /\
  Double.mul (41 # 10) 15 < 123 # 2 /\
  archiveRetentionDiskGb slowBatchRecommendations == 61.
Proof. repeat split; vm_compute; congruence. Qed.

Lemma supplemental_logging_warning_witness :
  existsb isSupplementalLoggingWarning (warnings busyRecommendations)
  = minimalLoggingNotEnabled (supplementalLogging busySnapshot) /\
  (isArray (supplementalLogging busySnapshot) = false ->
   existsb isSupplementalLoggingWarning (warnings busyRecommendations) = false).
Proof.
  apply (@supplemental_logging_warning decimalFormat busySnapshot busyRecommendations).
  vm_compute. reflexivity.
Defined.

(** The scenarios of the specification. *)

(** The warning of [busySnapshot], with a minimum window of 3 hours and a
    retention of 5 hours, reads 3.0h and 5h. *)
Example retention_risk_warning_cites_3h_and_5h :
  exists w,
    In w (warnings busyRecommendations) /\
    isRetentionRiskWarning w = true /\
    includes "is 3.0h " w = true /\
    includes "is 5h." w = true.
Proof.
  eexists. split; [do 4 right; left; reflexivity|].
  repeat split; vm_compute; reflexivity.
Qed.

(** The bare text NO as supplemental-logging fact gives no warning. *)
Example bare_NO_gives_no_supplemental_logging_warning :
  exists rec,
    @computeRecommendations decimalFormat snapshotBareNo = Normal rec /\
    existsb isSupplementalLoggingWarning (warnings rec) = false.
Proof.
  eexists. split; [vm_compute; reflexivity|]. vm_compute. reflexivity.
Qed.

(** Without any sample and with empty lists the engine returns its
    defaults. *)
Example emptySnapshot_defaults :
  exists rec,
    @computeRecommendations decimalFormat emptySnapshot = Normal rec /\
    redoLogSizeGb rec == 4 /\ redoLogGroups rec == 4 /\
    archiveRetentionHours rec == 3 /\ transactionRetentionMs rec == 300000 /\
    lobEnabled rec = false /\ lobReason rec = noLobReason /\
    queryFilterMode rec = "none".
Proof.
  eexists. split; [vm_compute; reflexivity|].
  repeat split; vm_compute; congruence.
Qed.

(** * More on the engine, on the example snapshots *)

Lemma redoLogGroups_floor_witness :
  exists rows,
    redoLogConfig busySnapshot = Some rows /\
    4 <= redoLogGroups busyRecommendations /\
    lengthOf rows <= redoLogGroups busyRecommendations /\
    redoLogGroups busyRecommendations
    = inject_Z (Z.max (Z.of_nat (List.length rows)) 4).
Proof.
  apply (@redoLogGroups_floor decimalFormat busySnapshot busyRecommendations).
  vm_compute. reflexivity.
Defined.

Lemma batch_sizes_consistent_witness :
  batchSizeDefault busyRecommendations < batchSizeMax busyRecommendations /\
  (batchSizeDefault busyRecommendations == 5000 ->
   queryFilterMode busyRecommendations = "regex") /\
  (queryFilterMode busyRecommendations = "none" ->
   batchSizeDefault busyRecommendations = 10000 /\
   batchSizeMax busyRecommendations = 50000).
Proof.
  apply (@batch_sizes_consistent decimalFormat busySnapshot busyRecommendations).
  vm_compute. reflexivity.
Defined.

Lemma heartbeat_policy_witness :
  (exists n : Z, archiveRetentionHours busyRecommendations = inject_Z n /\ (2 <= n)%Z) /\
  (archiveRetentionHours busyRecommendations == 2 ->
   heartbeatIntervalMs busyRecommendations = 10000) /\
  (3 <= archiveRetentionHours busyRecommendations ->
   heartbeatIntervalMs busyRecommendations = 30000) /\
  (archiveRetentionHours busyRecommendations == 2 \/
   3 <= archiveRetentionHours busyRecommendations).
Proof.
  apply (@heartbeat_policy decimalFormat busySnapshot busyRecommendations).
  vm_compute. reflexivity.
Defined.

Lemma archive_lag_warning_witness :
  (existsb isArchiveLagWarning (warnings busyRecommendations) = true <->
   archiveLagTarget busySnapshot == 0 /\
   MetricStats.min (switchesPerHour busySnapshot) < 2) /\
  (forall w, In w (warnings busyRecommendations) -> isArchiveLagWarning w = true ->
     includes (decimal_toString (MetricStats.min (switchesPerHour busySnapshot))
               ++ "/hour") w = true /\
     includes "archive_lag_target=1800" w = true).
Proof.
  apply (@archive_lag_warning decimalFormat busySnapshot busyRecommendations).
  vm_compute. reflexivity.
Defined.

Lemma warnings_in_order_witness :
  StronglySorted lt (map warningRank (warnings busyRecommendations)) /\
  Forall (fun w => (1 <= warningRank w <= 5)%nat) (warnings busyRecommendations) /\
  (List.length (warnings busyRecommendations) <= 5)%nat.
Proof.
  apply (@warnings_in_order decimalFormat busySnapshot busyRecommendations).
  vm_compute. reflexivity.
Defined.

Lemma lobWarning_names_every_column_witness :
  exists w,
    In w (warnings busyRecommendations) /\
    isLobWarning w = true /\
    forall c,
      In c [ {| TABLE_NAME := "ORDERS"; COLUMN_NAME := "NOTE"; DATA_TYPE := "CLOB" |};
             {| TABLE_NAME := "DOCS"; COLUMN_NAME := "BODY"; DATA_TYPE := "BLOB" |} ] ->
      includes (TABLE_NAME c ++ "." ++ COLUMN_NAME c) w = true.
Proof.
  apply (@lobWarning_names_every_column decimalFormat busySnapshot busyRecommendations).
  - vm_compute. reflexivity.
  - reflexivity.
  - discriminate.
Defined.

Lemma lobReason_when_found_witness :
  startsWith "2 LOB column(s) found" (lobReason busyRecommendations) = true /\
  includes "retention is >= 6h." (lobReason busyRecommendations) = true.
Proof.
  apply (@lobReason_when_found decimalFormat busySnapshot busyRecommendations
           [ {| TABLE_NAME := "ORDERS"; COLUMN_NAME := "NOTE"; DATA_TYPE := "CLOB" |};
             {| TABLE_NAME := "DOCS"; COLUMN_NAME := "BODY"; DATA_TYPE := "BLOB" |} ]).
  - vm_compute. reflexivity.
  - reflexivity.
  - discriminate.
Defined.

Lemma archiveRetentionHours_monotone_witness :
  archiveRetentionHours busyRecommendations
  <= archiveRetentionHours longTransactionRecommendations.
Proof.
  apply (@archiveRetentionHours_monotone decimalFormat
           busySnapshot longTransactionSnapshot
           busyRecommendations longTransactionRecommendations).
  - vm_compute. reflexivity.
  - vm_compute. reflexivity.
  - reflexivity.
  - vm_compute. discriminate.
  - vm_compute. discriminate.
Defined.

Lemma transactionRetention_within_archiveRetention_witness :
  transactionRetentionMs busyRecommendations
  <= archiveRetentionHours busyRecommendations * 3600000.
Proof.
  apply (@transactionRetention_within_archiveRetention
           decimalFormat busySnapshot busyRecommendations).
  - vm_compute. reflexivity.
  - vm_compute. discriminate.
Defined.

Lemma transactionRetentionMs_monotone_witness :
  transactionRetentionMs shortTransactionRecommendations
  <= transactionRetentionMs longTransactionRecommendations.
Proof.
  apply (@transactionRetentionMs_monotone decimalFormat
           shortTransactionSnapshot longTransactionSnapshot
           shortTransactionRecommendations longTransactionRecommendations).
  - vm_compute. reflexivity.
  - vm_compute. reflexivity.
  - vm_compute. discriminate.
Defined.

Lemma resized_redoLog_holds_peak_witness :
  (exists n : Z, redoLogSizeGb switchingRecommendations == inject_Z n) /\
  2 <= redoLogSizeGb switchingRecommendations /\
  peakArchiveGbPerHour switchingSnapshot <= 4 * redoLogSizeGb switchingRecommendations.
Proof.
  apply (@resized_redoLog_holds_peak decimalFormat
           switchingSnapshot switchingRecommendations).
  - vm_compute. reflexivity.
  - vm_compute. reflexivity.
Defined.

Lemma small_redoLog_rounds_to_zero_witness :
  redoLogSizeGb smallRedoRecommendations == 0.
Proof.
  apply (@small_redoLog_rounds_to_zero decimalFormat
           smallRedoSnapshot smallRedoRecommendations
           [ {| GROUP_NUM := 1; BYTES := 52428800; MEMBERS := 1; STATUS := "CURRENT" |};
             {| GROUP_NUM := 2; BYTES := 52428800; MEMBERS := 1; STATUS := "INACTIVE" |} ]).
  - vm_compute. reflexivity.
  - reflexivity.
  - vm_compute. discriminate.
  - vm_compute. discriminate.
  - vm_compute. reflexivity.
Defined.


(** * The renderers *)

Lemma Normal_inj {A : Type} (a b : A) : Normal a = Normal b -> a = b.
Proof. intros H. now injection H. Qed.

(** Splits a membership in the lines that a renderer pushes into the
    membership in each block of lines. *)
Ltac split_lines H :=
  repeat match type of H with
         | In _ (_ ++ _) => apply in_app_or in H; destruct H as [H|H]
         | In _ (_ :: _) => destruct H as [H|H]
         | In _ [] => destruct H
         end.

(** Closes the cases of a membership in a block of lines that name a line
    which is not the one looked for. *)
Ltac other_lines H :=
  cbn [In] in H;
  repeat (destruct H as [H|H]; [try discriminate H|]);
  try contradiction.

(** The same, for lines that are mapped from a list. *)
Ltac other_mapped_lines H :=
  apply in_map_iff in H; destruct H as [? [H _]]; discriminate H.

(** Runs [markdownLines] in a hypothesis [H : markdownLines now r rec =
    Normal lines]. *)
Ltac run_markdown H :=
  unfold markdownLines in H;
  match type of H with
  | context [deref (redoLogConfig ?r) _] =>
      let rows := fresh "rows" in
      destruct (redoLogConfig r) as [rows|];
      [cbn [deref bind] in H; apply Normal_inj in H; subst | discriminate H]
  end.

Lemma ltb_leb (x y : number) : ltb x y = true -> leb y x = false.
Proof.
  intros H. apply ltb_true_iff in H. unfold leb.
  destruct (Qle_bool y x) eqn:E; [|reflexivity].
  apply Qle_bool_iff in E. exfalso. exact (Qlt_not_le _ _ H E).
Qed.

(** Finds a line in the lines that a renderer pushes. *)
Ltac find_line :=
  match goal with
  | |- In _ (_ :: _) => solve [apply in_eq | apply in_cons; find_line]
  | |- In _ (_ ++ _) =>
      solve [ apply in_or_app; left; find_line
            | apply in_or_app; right; find_line ]
  | |- In _ (if _ then _ else _) => progress cbn [negb andb]; find_line
  | |- In _ (match _ with _ => _ end) => progress cbv beta iota; find_line
  end.

Section RendererProperties.

Context {fmt : NumberFormat}.

Variable now : string.

(** X15. On the recommendations of the engine the configuration snippet
    always sets LOB support and the archive-log-only mode to false. *)
Theorem envSnippet_flags (r : DiagReport) (rec : Recommendations) :
  computeRecommendations r = Normal rec ->
  In "DEBEZIUM_SOURCE_ORACLE_LOB_ENABLED=false" (envSnippetLines now rec r) /\
  In "DEBEZIUM_SOURCE_LOG_MINING_ARCHIVE_LOG_ONLY_MODE=false"
     (envSnippetLines now rec r).
Proof.
  intros H. destruct (engine_flags r rec H) as [Hlob Hmode].
  unfold envSnippetLines. rewrite Hlob, Hmode. cbn [booleanToString].
  split; find_line.
Qed.

(** X16. On the recommendations of the engine the configuration snippet
    sets the query filter mode to regex when a query-filter warning was
    raised, and has no line for the query filter mode otherwise. *)
Theorem envSnippet_filter_mode (r : DiagReport) (rec : Recommendations) :
  computeRecommendations r = Normal rec ->
  (existsb isQueryFilterWarning (warnings rec) = true ->
   In "DEBEZIUM_SOURCE_LOG_MINING_QUERY_FILTER_MODE=regex"
      (envSnippetLines now rec r)) /\
  (existsb isQueryFilterWarning (warnings rec) = false ->
   forall line, In line (envSnippetLines now rec r) ->
     startsWith "DEBEZIUM_SOURCE_LOG_MINING_QUERY_FILTER_MODE=" line = false).
Proof.
  intros H. destruct (existsb_isQueryFilterWarning r rec H) as [Hw Hmode].
  rewrite Hw. unfold envSnippetLines.
  destruct Hmode as [-> | ->]; split;
    try (intros Hx; vm_compute in Hx; discriminate Hx).
  - intros _. change ("regex" =? "none") with false. cbn [negb]. find_line.
  - intros _ line Hin. change ("none" =? "none") with true in Hin.
    cbn [negb] in Hin. destruct (strictEq (archiveLagTarget r) 0).
    all: split_lines Hin; first [subst line; reflexivity | destruct Hin].
Qed.

(** X17. The configuration snippet lists the setting of ARCHIVE_LAG_TARGET
    among the actions for the DBA exactly when the archive lag target is
    0, hence whenever the engine raised the archive-lag warning. *)
Theorem envSnippet_archive_lag_action (r : DiagReport) (rec : Recommendations) :
  (In "# 3. Set ARCHIVE_LAG_TARGET=1800" (envSnippetLines now rec r) <->
   archiveLagTarget r == 0) /\
  (computeRecommendations r = Normal rec ->
   existsb isArchiveLagWarning (warnings rec) = true ->
   In "# 3. Set ARCHIVE_LAG_TARGET=1800" (envSnippetLines now rec r)).
Proof.
  assert (Hiff : In "# 3. Set ARCHIVE_LAG_TARGET=1800" (envSnippetLines now rec r)
                 <-> archiveLagTarget r == 0).
  { unfold envSnippetLines, strictEq. rewrite <- Qeq_bool_iff.
    destruct (Qeq_bool (archiveLagTarget r) 0); split; intros Hx;
      try reflexivity.
    - find_line.
    - exfalso. split_lines Hx; try discriminate Hx.
      destruct (negb (queryFilterMode rec =? "none")); other_lines Hx.
    - discriminate Hx. }
  split; [exact Hiff|].
  intros H Hw. apply Hiff.
  rewrite (existsb_isArchiveLagWarning r rec H) in Hw.
  apply andb_true_iff in Hw. destruct Hw as [Ht _].
  now apply Qeq_bool_iff.
Qed.

(** X18. The report has its section of warnings exactly when the list of
    warnings is not empty, and it lists every warning as an item. *)
Theorem markdown_lists_warnings
  (r : DiagReport) (rec : Recommendations) (lines : list string) :
  markdownLines now r rec = Normal lines ->
  (In "## ⚠ Warnings" lines <-> warnings rec <> []) /\
  (forall w, In w (warnings rec) -> In ("- " ++ w) lines).
Proof.
  intros H. run_markdown H. rewrite gtb_lengthOf. split.
  - destruct (warnings rec) as [|w ws]; split; intros Hx;
      try congruence; try find_line.
    exfalso. unfold fmtStats in Hx.
    split_lines Hx; try discriminate Hx.
    + destruct rows; other_lines Hx.
    + destruct (lobColumns r) as [cols|]; [|other_lines Hx].
      destruct (gtb (lengthOf cols) 0); [|other_lines Hx].
      split_lines Hx; try discriminate Hx. other_mapped_lines Hx.
    + destruct (strictEq (archiveLagTarget r) 0
                && ltb (MetricStats.min (switchesPerHour r)) 2);
        other_lines Hx.
  - intros w Hw. destruct (warnings rec) as [|w0 ws] eqn:Hws; [destruct Hw|].
    do 6 (apply in_or_app; right). apply in_or_app; left.
    apply in_or_app; right. apply in_or_app; left.
    now apply (in_map (fun w => "- " ++ w)).
Qed.

(** X19. The report has its section on the Oracle parameter, with the
    statement that sets ARCHIVE_LAG_TARGET to 1800, exactly when the engine
    raised the archive-lag warning. *)
Theorem markdown_parameter_change
  (r : DiagReport) (rec : Recommendations) (lines : list string) :
  computeRecommendations r = Normal rec ->
  markdownLines now r rec = Normal lines ->
  (In "ALTER SYSTEM SET ARCHIVE_LAG_TARGET = 1800 SCOPE=BOTH;" lines <->
   existsb isArchiveLagWarning (warnings rec) = true).
Proof.
  intros He H. rewrite (existsb_isArchiveLagWarning r rec He).
  run_markdown H.
  destruct (strictEq (archiveLagTarget r) 0
            && ltb (MetricStats.min (switchesPerHour r)) 2);
    split; intros Hx; try reflexivity; try discriminate Hx.
  - find_line.
  - exfalso. unfold fmtStats in Hx.
    split_lines Hx; try discriminate Hx.
    + destruct rows; split_lines Hx; discriminate Hx.
    + destruct (lobColumns r) as [cols|]; [|destruct Hx].
      destruct (gtb (lengthOf cols) 0); [|destruct Hx].
      split_lines Hx; try discriminate Hx. other_mapped_lines Hx.
    + destruct (gtb (lengthOf (warnings rec)) 0); [|destruct Hx].
      split_lines Hx; try discriminate Hx. other_mapped_lines Hx.
Qed.

(** X20. Whenever the engine raised the retention-risk warning, the report
    marks the archive window as too short, on the line that compares the
    recommended retention with the observed minimum window. *)
Theorem markdown_marks_short_window
  (r : DiagReport) (rec : Recommendations) (lines : list string) :
  computeRecommendations r = Normal rec ->
  markdownLines now r rec = Normal lines ->
  existsb isRetentionRiskWarning (warnings rec) = true ->
  In ("> Recommended retention: **"
      ++ numberToString (archiveRetentionHours rec)
      ++ "h** — current minimum window: **"
      ++ toFixed (MetricStats.min (archiveWindowHours r)) 1
      ++ "h** — ⚠ TOO SHORT (ORA-00308 risk)") lines.
Proof.
  intros He H Hw. rewrite (existsb_isRetentionRiskWarning r rec He) in Hw.
  apply andb_true_iff in Hw. destruct Hw as [_ Hlt]. apply ltb_leb in Hlt.
  run_markdown H. rewrite Hlt.
  apply in_or_app; right. apply in_or_app; left. apply in_eq.
Qed.

(** X21. The report has its table of LOB columns exactly when at least one
    LOB column was found, and the table has a row for every column. *)
Theorem markdown_lists_lob_columns
  (r : DiagReport) (rec : Recommendations) (lines : list string) :
  markdownLines now r rec = Normal lines ->
  (In "### LOB Columns in Captured Tables" lines <-> lobColumnFound r = true) /\
  (forall cols col, lobColumns r = Some cols -> In col cols ->
     In ("| " ++ TABLE_NAME col ++ " | " ++ COLUMN_NAME col ++ " | "
         ++ DATA_TYPE col ++ " |") lines).
Proof.
  intros H. run_markdown H. unfold lobColumnFound. split.
  - destruct (lobColumns r) as [cols|].
    + rewrite gtb_lengthOf. destruct cols as [|c cs]; split; intros Hx;
        try reflexivity; try discriminate Hx.
      * exfalso. unfold fmtStats in Hx.
        split_lines Hx; try discriminate Hx.
        -- destruct rows; split_lines Hx; discriminate Hx.
        -- destruct (gtb (lengthOf (warnings rec)) 0); [|destruct Hx].
           split_lines Hx; try discriminate Hx. other_mapped_lines Hx.
        -- destruct (strictEq (archiveLagTarget r) 0
                     && ltb (MetricStats.min (switchesPerHour r)) 2);
             split_lines Hx; discriminate Hx.
      * find_line.
    + split; intros Hx; [|discriminate Hx].
      exfalso. unfold fmtStats in Hx.
      split_lines Hx; try discriminate Hx.
      * destruct rows; split_lines Hx; discriminate Hx.
      * destruct (gtb (lengthOf (warnings rec)) 0); [|destruct Hx].
        split_lines Hx; try discriminate Hx. other_mapped_lines Hx.
      * destruct (strictEq (archiveLagTarget r) 0
                  && ltb (MetricStats.min (switchesPerHour r)) 2);
          split_lines Hx; discriminate Hx.
  - intros cols col Hc Hin. rewrite Hc. rewrite gtb_lengthOf.
    destruct cols as [|c cs]; [destruct Hin|].
    do 4 (apply in_or_app; right). apply in_or_app; left.
    apply in_or_app; right. apply in_or_app; left.
    exact (in_map (fun col => "| " ++ TABLE_NAME col ++ " | " ++ COLUMN_NAME col
                              ++ " | " ++ DATA_TYPE col ++ " |")
                  (c :: cs) col Hin).
Qed.

(** X22. Without any sample of the archive window, whose minimum then reads
    below 2 hours, the engine raises no retention-risk warning, yet the
    report marks the window as too short. *)
Theorem markdown_short_window_without_samples
  (r : DiagReport) (rec : Recommendations) (lines : list string) :
  computeRecommendations r = Normal rec ->
  markdownLines now r rec = Normal lines ->
  MetricStats.samples (archiveWindowHours r) <= 0 ->
  MetricStats.min (archiveWindowHours r) < 2 ->
  existsb isRetentionRiskWarning (warnings rec) = false /\
  In ("> Recommended retention: **"
      ++ numberToString (archiveRetentionHours rec)
      ++ "h** — current minimum window: **"
      ++ toFixed (MetricStats.min (archiveWindowHours r)) 1
      ++ "h** — ⚠ TOO SHORT (ORA-00308 risk)") lines.
Proof.
  intros He H Hs Hm. split.
  - rewrite (existsb_isRetentionRiskWarning r rec He).
    apply gtb_false_iff in Hs. now rewrite Hs.
  - destruct (retention_floors_aux r rec He) as [n [Hn Hge]].
    assert (Hlt : ltb (MetricStats.min (archiveWindowHours r))
                      (archiveRetentionHours rec) = true).
    { apply ltb_true_iff. rewrite Hn. rewrite Zle_Qle in Hge.
      change (inject_Z 2) with 2 in Hge. lra. }
    apply ltb_leb in Hlt. run_markdown H. rewrite Hlt.
    apply in_or_app; right. apply in_or_app; left. apply in_eq.
Qed.

End RendererProperties.

Lemma envSnippet_flags_witness :
  In "DEBEZIUM_SOURCE_ORACLE_LOB_ENABLED=false"
     (@envSnippetLines decimalFormat exampleNow busyRecommendations busySnapshot) /\
  In "DEBEZIUM_SOURCE_LOG_MINING_ARCHIVE_LOG_ONLY_MODE=false"
     (@envSnippetLines decimalFormat exampleNow busyRecommendations busySnapshot).
Proof.
  apply (@envSnippet_flags decimalFormat exampleNow busySnapshot busyRecommendations).
  vm_compute. reflexivity.
Defined.

Lemma envSnippet_filter_mode_witness :
  (existsb isQueryFilterWarning (warnings busyRecommendations) = true ->
   In "DEBEZIUM_SOURCE_LOG_MINING_QUERY_FILTER_MODE=regex"
      (@envSnippetLines decimalFormat exampleNow busyRecommendations busySnapshot)) /\
  (existsb isQueryFilterWarning (warnings busyRecommendations) = false ->
   forall line,
     In line (@envSnippetLines decimalFormat exampleNow busyRecommendations busySnapshot) ->
     startsWith "DEBEZIUM_SOURCE_LOG_MINING_QUERY_FILTER_MODE=" line = false).
Proof.
  apply (@envSnippet_filter_mode decimalFormat exampleNow busySnapshot busyRecommendations).
  vm_compute. reflexivity.
Defined.

Lemma markdown_lists_warnings_witness :
  (In "## ⚠ Warnings" busyReportLines <-> warnings busyRecommendations <> []) /\
  (forall w, In w (warnings busyRecommendations) -> In ("- " ++ w) busyReportLines).
Proof.
  apply (@markdown_lists_warnings decimalFormat exampleNow busySnapshot busyRecommendations).
  vm_compute. reflexivity.
Defined.

Lemma markdown_parameter_change_witness :
  In "ALTER SYSTEM SET ARCHIVE_LAG_TARGET = 1800 SCOPE=BOTH;" busyReportLines <->
  existsb isArchiveLagWarning (warnings busyRecommendations) = true.
Proof.
  apply (@markdown_parameter_change decimalFormat exampleNow busySnapshot busyRecommendations).
  - vm_compute. reflexivity.
  - vm_compute. reflexivity.
Defined.

Lemma markdown_marks_short_window_witness :
  In "> Recommended retention: **5h** — current minimum window: **3.0h** — ⚠ TOO SHORT (ORA-00308 risk)"
     busyReportLines.
Proof.
  apply (@markdown_marks_short_window decimalFormat exampleNow busySnapshot busyRecommendations).
  - vm_compute. reflexivity.
  - vm_compute. reflexivity.
  - vm_compute. reflexivity.
Defined.

Lemma markdown_lists_lob_columns_witness :
  (In "### LOB Columns in Captured Tables" busyReportLines <->
   lobColumnFound busySnapshot = true) /\
  (forall cols col, lobColumns busySnapshot = Some cols -> In col cols ->
     In ("| " ++ TABLE_NAME col ++ " | " ++ COLUMN_NAME col ++ " | "
         ++ DATA_TYPE col ++ " |") busyReportLines).
Proof.
  apply (@markdown_lists_lob_columns decimalFormat exampleNow busySnapshot busyRecommendations).
  vm_compute. reflexivity.
Defined.

Lemma markdown_short_window_without_samples_witness :
  existsb isRetentionRiskWarning (warnings emptyRecommendations) = false /\
  In "> Recommended retention: **3h** — current minimum window: **0.0h** — ⚠ TOO SHORT (ORA-00308 risk)"
     emptyReportLines.
Proof.
  apply (@markdown_short_window_without_samples decimalFormat exampleNow
           emptySnapshot emptyRecommendations).
  - vm_compute. reflexivity.
  - vm_compute. reflexivity.
  - vm_compute. discriminate.
  - vm_compute. reflexivity.
Defined.

(** * Reading a static fact *)

(** X23. [getMaxStringSize] never returns [null]: it returns STANDARD
    unless the fact is an array whose first element is an object with a
    VALUE that is not [null], and that VALUE in this case. *)
Theorem getMaxStringSize_cases (data : Json) :
  getMaxStringSize data <> JNull /\
  (getMaxStringSize data = JString "STANDARD" \/
   exists members rest value,
     data = JArray (JObject members :: rest) /\
     lookupMember "VALUE" members = Some value /\
     value <> JNull /\
     getMaxStringSize data = value).
Proof.
  unfold getMaxStringSize.
  destruct data as [| b | n | s | elems | members]; cbn [asArray];
    try (split; [discriminate | left; reflexivity]).
  rewrite gtb_lengthOf. destruct elems as [|first rest];
    [split; [discriminate | left; reflexivity]|].
  cbn [List.head].
  destruct first as [| b | n | s | elems | members]; cbn [optChain];
    try (split; [discriminate | left; reflexivity]).
  destruct (lookupMember "VALUE" members) as [value|] eqn:Hv;
    [|split; [discriminate | left; reflexivity]].
  destruct value as [| b | n | s | elems | ms];
    try (split; [discriminate | left; reflexivity]);
    (split; [discriminate|]); right;
    eexists members, rest, _;
    (split; [reflexivity | split; [exact Hv | split; [discriminate | reflexivity]]]).
Qed.

(** * The connection settings *)

Lemma find_first {A : Type} (f : A -> bool) (l : list A) (x : A) :
  List.find f l = Some x ->
  exists before after,
    l = (before ++ x :: after)%list /\ f x = true /\
    Forall (fun y => f y = false) before.
Proof.
  induction l as [|a l IH]; [discriminate|]. cbn [List.find].
  destruct (f a) eqn:Ha.
  - intros [= ->]. exists [], l. repeat split; [assumption | constructor].
  - intros H. destruct (IH H) as [before [after [-> [Hx Hb]]]].
    exists (a :: before), after. repeat split; [assumption | now constructor].
Qed.

Lemma find_nothing {A : Type} (f : A -> bool) (l : list A) :
  List.find f l = None -> Forall (fun y => f y = false) l.
Proof.
  induction l as [|a l IH]; [constructor|]. cbn [List.find].
  destruct (f a) eqn:Ha; [discriminate|]. intros H. constructor; auto.
Qed.

(** X24. [getDbConfig] throws for the first of ORACLE_HOST, ORACLE_PORT,
    ORACLE_SERVICE, ORACLE_USER and ORACLE_PASSWORD that is unset or empty,
    and names it in the message; when none is, it returns the settings as
    the environment has them, each one a string that is not empty. *)
Theorem getDbConfig_cases
  (JsNumber : Type) (parseInt10 : option string -> JsNumber)
  (env : string -> option string) :
  match getDbConfig JsNumber parseInt10 env with
  | inl message =>
      exists before key after,
        required = (before ++ key :: after)%list /\
        message = "Missing env var: " ++ key /\
        isFalsy (env key) = true /\
        Forall (fun name => isFalsy (env name) = false) before
  | inr cfg =>
      Forall (fun name => exists value, env name = Some value /\ value <> "")
             required /\
      host cfg = env "ORACLE_HOST" /\
      port cfg = parseInt10 (env "ORACLE_PORT") /\
      service cfg = env "ORACLE_SERVICE" /\
      user cfg = env "ORACLE_USER" /\
      password cfg = env "ORACLE_PASSWORD"
  end.
Proof.
  unfold getDbConfig.
  destruct (List.find (fun key => isFalsy (env key)) required) as [key|] eqn:Hf.
  - destruct (find_first _ _ _ Hf) as [before [after [Heq [Hk Hb]]]].
    exists before, key, after. auto.
  - split; [|repeat split].
    apply find_nothing in Hf. eapply Forall_impl; [|exact Hf].
    cbn. intros name Hn. unfold isFalsy in Hn.
    destruct (env name) as [value|]; [|discriminate].
    exists value. split; [reflexivity|].
    intros ->. discriminate.
Qed.
